(** * Collection pipeline of assistente_virtual_juiz

    A shallow embedding of the scrapers ([src/scrapers]), the collection
    service ([src/services/jurisprudencia_service.py]) and the scheduler
    ([src/services/scheduler_service.py], [src/routes/scheduler.py]),
    together with the properties the specification states about them. *)

From Stdlib Require Import ZArith String Ascii DecimalString.
From stdpp Require Import gmap strings list.

Local Open Scope string_scope.
Local Open Scope Z_scope.

(** * Python values and exceptions *)

(** What a Python call produces: a value, or an exception carrying the
    text that [str(e)] gives. *)
Inductive result (A : Type) : Type :=
  | Ok (a : A)
  | Raise (e : string).
Arguments Ok {A} a.
Arguments Raise {A} e.

Definition bind {A B : Type} (r : result A) (k : A -> result B) : result B :=
  match r with
  | Ok a => k a
  | Raise e => Raise e
  end.

Notation "x <- r ;; k" := (bind r (fun x => k))
  (at level 100, r at next level, right associativity, only parsing).

(** [try: body / except Exception: handler]. *)
Definition try_except {A : Type} (body : result A) (handler : string -> A) : A :=
  match body with
  | Ok a => a
  | Raise e => handler e
  end.

(** * Text normalisation: [BaseScraper.clean_text] *)

(** A Python [str] is a sequence of characters; [str.split()] and
    [str.strip()] without arguments cut at the characters for which
    [str.isspace] holds, and [' '.join] inserts U+0020 between the words. *)
Class PyChar (char : Type) := {
  isspace : char -> bool;
  blank : char;
  isspace_blank : isspace blank = true
}.

(** Unicode code points, with the white space table of CPython
    ([_PyUnicode_IsWhitespace]). *)
Definition unicode_isspace (c : N) : bool :=
  ((9 <=? c) && (c <=? 13) || (28 <=? c) && (c <=? 32) || (c =? 133) || (c =? 160)
   || (c =? 5760) || (8192 <=? c) && (c <=? 8202) || (c =? 8232) || (c =? 8233)
   || (c =? 8239) || (c =? 8287) || (c =? 12288))%N.

#[export] Instance unicode_char : PyChar N :=
  {| isspace := unicode_isspace; blank := 32%N; isspace_blank := eq_refl |}.

(** The characters of a Rocq [string], read as the code points below 256. *)
Definition ascii_isspace (c : ascii) : bool := unicode_isspace (N_of_ascii c).

#[export] Instance latin1_char : PyChar ascii :=
  {| isspace := ascii_isspace; blank := " "%char; isspace_blank := eq_refl |}.

Section CleanText.
Context {char : Type} `{PyChar char}.

(** [text.split()]: the maximal runs of non-space characters, in order.
    [word] is the run being scanned. *)
Fixpoint split_aux (word text : list char) : list (list char) :=
  match text with
  | [] => match word with [] => [] | _ => [word] end
  | c :: rest =>
      if isspace c then
        match word with
        | [] => split_aux [] rest
        | _ => word :: split_aux [] rest
        end
      else split_aux (word ++ [c]) rest
  end.

Definition split (text : list char) : list (list char) := split_aux [] text.

(** [sep.join(words)]. *)
Fixpoint join (sep : list char) (words : list (list char)) : list char :=
  match words with
  | [] => []
  | [w] => w
  | w :: ws => w ++ sep ++ join sep ws
  end.

Fixpoint lstrip (text : list char) : list char :=
  match text with
  | [] => []
  | c :: rest => if isspace c then lstrip rest else text
  end.

Definition rstrip (text : list char) : list char :=
  reverse (lstrip (reverse text)).

(** [text.strip()]. *)
Definition strip (text : list char) : list char := rstrip (lstrip text).

(** [clean_text(text)]; [None] is an absent argument and, like the empty
    string, falsy. *)
Definition clean_text (text : option (list char)) : list char :=
  match text with
  | None => []
  | Some [] => []
  | Some t => strip (join [blank] (split t))
  end.

(** No space character is followed by another one. *)
Fixpoint no_space_run (text : list char) : bool :=
  match text with
  | c1 :: (c2 :: _) as rest => negb (isspace c1 && isspace c2) && no_space_run rest
  | _ => true
  end.

(** The first and the last character, when there is one, are not spaces. *)
Definition trimmed (text : list char) : Prop :=
  (forall c, head text = Some c -> isspace c = false) /\
  (forall c, last text = Some c -> isspace c = false).

(** A word of [split]: not empty, no space inside. *)
Definition is_word (w : list char) : Prop :=
  w <> [] /\ Forall (fun c => isspace c = false) w.
End CleanText.

(** [clean_text] on Rocq strings, as the scrapers use it on page text. *)
Definition clean_text_str (text : option string) : string :=
  string_of_list_ascii (clean_text (list_ascii_of_string <$> text)).

(** * Python data handed between the components *)

(** The scalar values found in the dictionaries the scrapers build. *)
Inductive pyval : Type :=
  | VNone
  | VStr (s : string)
  | VInt (z : Z).

#[export] Instance pyval_eq_dec : EqDecision pyval.
Proof. solve_decision. Defined.

(** Truth value of a scalar, as [if x:] tests it. *)
Definition truthy (v : pyval) : bool :=
  match v with
  | VNone => false
  | VStr s => negb (String.eqb s "")
  | VInt z => negb (z =? 0)
  end.

(** [str(n)] for an integer. *)
Definition str (z : Z) : string := NilEmpty.string_of_int (Z.to_int z).

(** [d.get(key)]: [None] when the key is missing. *)
Definition dict_get (d : gmap string pyval) (key : string) : pyval :=
  default VNone (d !! key).

(** An element of a list returned by a scraper: a dictionary, or some
    other object ([type_name] is its class), on which [.get] raises
    [AttributeError]. *)
Inductive pyobj : Type :=
  | PyDict (d : gmap string pyval)
  | PyOther (type_name : string).

Definition get (o : pyobj) (key : string) : result pyval :=
  match o with
  | PyDict d => Ok (dict_get d key)
  | PyOther type_name =>
      Raise ("'" ++ type_name ++ "' object has no attribute 'get'")
  end.

(** * The store: [src/models/jurisprudencia.py] *)

(** The columns of table [jurisprudencia] that the service fills in; [id]
    and [data_coleta] are given by the storage engine on insertion. *)
Record Jurisprudencia : Type := {
  tribunal : pyval;
  numero_processo : pyval;
  relator : pyval;
  data_julgamento : pyval;
  data_publicacao : pyval;
  ementa : pyval;
  acordao : pyval;
  tags : pyval;
  url_origem : pyval
}.

(** The columns of table [enunciados] that the service fills in. *)
Record Enunciado : Type := {
  orgao : pyval;
  tipo : pyval;
  numero : pyval;
  texto : pyval;
  observacoes : pyval;
  enunciado_url_origem : pyval
}.

(** [db]: the committed rows of the two tables, in insertion order, and the
    rows added to [db.session] and not committed yet. *)
Record Database : Type := {
  jurisprudencia : list Jurisprudencia;
  enunciados : list Enunciado;
  new_jurisprudencia : list Jurisprudencia;
  new_enunciados : list Enunciado
}.

Module Session.

Definition same_processo (t n : pyval) (row : Jurisprudencia) : bool :=
  bool_decide (tribunal row = t) && bool_decide (numero_processo row = n).

Definition same_enunciado (o t n : pyval) (row : Enunciado) : bool :=
  bool_decide (orgao row = o) && bool_decide (tipo row = t)
  && bool_decide (numero row = n).

(** [Jurisprudencia.query.filter_by(tribunal=t, numero_processo=n).first()].
    The session autoflushes before a query, so the rows added in the open
    transaction are seen as well. *)
Definition first_jurisprudencia (t n : pyval) (db : Database)
  : option Jurisprudencia :=
  List.find (same_processo t n) (jurisprudencia db ++ new_jurisprudencia db).

(** [Enunciado.query.filter_by(orgao=o, tipo=t, numero=n).first()]. *)
Definition first_enunciado (o t n : pyval) (db : Database) : option Enunciado :=
  List.find (same_enunciado o t n) (enunciados db ++ new_enunciados db).

(** [db.session.add(row)]. *)
Definition add_jurisprudencia (row : Jurisprudencia) (db : Database) : Database :=
  {| jurisprudencia := jurisprudencia db;
     enunciados := enunciados db;
     new_jurisprudencia := new_jurisprudencia db ++ [row];
     new_enunciados := new_enunciados db |}.

Definition add_enunciado (row : Enunciado) (db : Database) : Database :=
  {| jurisprudencia := jurisprudencia db;
     enunciados := enunciados db;
     new_jurisprudencia := new_jurisprudencia db;
     new_enunciados := new_enunciados db ++ [row] |}.

(** [db.session.commit()]. [accepted] tells whether the storage engine
    takes the transaction; when it does not (a violated constraint, the
    storage out of reach) the call raises and nothing is written. *)
Definition commit (accepted : bool) (db : Database) : result Database :=
  if accepted then
    Ok {| jurisprudencia := jurisprudencia db ++ new_jurisprudencia db;
          enunciados := enunciados db ++ new_enunciados db;
          new_jurisprudencia := [];
          new_enunciados := [] |}
  else Raise "commit failed".

(** [db.session.rollback()]. *)
Definition rollback (db : Database) : Database :=
  {| jurisprudencia := jurisprudencia db;
     enunciados := enunciados db;
     new_jurisprudencia := [];
     new_enunciados := [] |}.

End Session.

(** * The outside world

    What the scrapers reach through [requests], [datetime], [bs4] and [re].
    The fields are the library calls the source makes; a run of the
    program sees one such world. *)

(** [self.session.get(url, params=params, timeout=timeout)]: a response, an
    exception of class [requests.RequestException], or any other one. *)
Inductive http_outcome : Type :=
  | HttpResponse (status_code : Z) (text : string)
  | RequestException (e : string)
  | OtherException (e : string).

Inductive re_flag : Type := IGNORECASE | DOTALL.

(** A match object: [m.group(i)] and [m.start()]. *)
Record re_match : Type := { group : nat -> string; start : nat }.

Class World : Type := {
  http_get : string -> http_outcome;
  (** [datetime.now().toordinal()] *)
  today : Z;
  soup : Type;
  element : Type;
  (** [BeautifulSoup(html_content, 'html.parser')] *)
  parse_html : string -> result soup;
  (** [soup.find_all(name, class_=c)] and [soup.find(name, class_=c)] *)
  soup_find_all : soup -> string -> option string -> list element;
  soup_find : soup -> string -> option string -> option element;
  (** [e.find('a', href=True)], then [.get('href')] of the link found *)
  element_find_href : element -> option string;
  get_text : element -> string;
  (** [re.search(pattern, text, flags)], [re.sub(pattern, repl, text, flags)] *)
  re_search : string -> string -> list re_flag -> option re_match;
  re_sub : string -> string -> string -> list re_flag -> string;
  (** [int(s)] *)
  int : string -> result Z
}.

(** [a or b] on two lists, and on two optional objects that are truthy
    when present. *)
Definition or_list {A : Type} (a b : list A) : list A :=
  match a with [] => b | _ => a end.

Definition or_else {A : Type} (a b : option A) : option A :=
  match a with Some _ => a | None => b end.

(** [s.strip()] and [s.upper()] on Rocq strings. *)
Definition strip_str (s : string) : string :=
  string_of_list_ascii (strip (list_ascii_of_string s)).

Definition upper_char (c : ascii) : ascii :=
  let n := N_of_ascii c in
  if ((97 <=? n) && (n <=? 122))%N then ascii_of_N (n - 32) else c.

Fixpoint upper (s : string) : string :=
  match s with
  | EmptyString => EmptyString
  | String c s' => String (upper_char c) (upper s')
  end.

(** * [src/scrapers/base_scraper.py] *)

Module BaseScraper.

(** [get_page(url)]: the response (here its [text]) or [None]. The random
    delay before the request takes time and changes no value. A response
    with a status from 400 to 599 makes [raise_for_status] raise
    [HTTPError], and a [url] that is no string makes [requests] raise
    [MissingSchema]; both are [RequestException]s. *)
Definition get_page `{World} (url : pyval) : result (option string) :=
  match url with
  | VStr u =>
      match http_get u with
      | HttpResponse status_code text =>
          if (400 <=? status_code) && (status_code <? 600) then Ok None
          else Ok (Some text)
      | RequestException _ => Ok None
      | OtherException e => Raise e
      end
  | _ => Ok None
  end.

(** [extract_date(date_string)]. *)
Definition extract_date (date_string : string) : string := date_string.

(** The abstract methods of the class. [extract_decision_details] gives a
    dictionary or [None]. *)
Record t : Type := {
  get_tribunal_name : string;
  search_recent_decisions : Z -> result (list pyobj);
  extract_decision_details : pyval -> result (option (gmap string pyval))
}.

(** The loop of [get_recent_jurisprudence]; [if details:] drops [None]
    and the empty dictionary. *)
Fixpoint extract_all (self : t) (decisions : list pyobj)
    (detailed_decisions : list (gmap string pyval))
  : result (list (gmap string pyval)) :=
  match decisions with
  | [] => Ok detailed_decisions
  | decision :: rest =>
      url <- get decision "url" ;;
      details <- extract_decision_details self url ;;
      extract_all self rest
        (match details with
         | Some d =>
             if bool_decide (d = ∅) then detailed_decisions
             else detailed_decisions ++ [d]
         | None => detailed_decisions
         end)
  end.

Definition get_recent_jurisprudence (self : t) (days_back : Z)
  : list (gmap string pyval) :=
  try_except
    (decisions <- search_recent_decisions self days_back ;;
     extract_all self decisions [])
    (fun _ => []).

End BaseScraper.

(** * [src/scrapers/stj_scraper.py] *)

Module STJScraper.
Section WithWorld.
Context `{World}.

Definition base_url : string := "https://www.stj.jus.br".

Definition search_url : string :=
  base_url ++ "/sites/portalp/Paginas/Jurisprudencia/Pesquisa-de-Jurisprudencia.aspx".

Definition get_tribunal_name : string := "STJ".

Definition _extract_process_number (text : string) : string :=
  match re_search "(\d{7}-\d{2}\.\d{4}\.\d\.\d{2}\.\d{4})" text [] with
  | Some m => group m 1
  | None => ""
  end.

Definition _extract_relator (text : string) : string :=
  match re_search "Rel\.?:?\s*([A-ZÁÊÇÕ\s]+)" text [IGNORECASE] with
  | Some m => strip_str (group m 1)
  | None => ""
  end.

(** Nothing in the body raises on a parsed element, so the [except]
    branch, which also returns [None], is not reached. *)
Definition _extract_basic_info (item_element : element)
  : option (gmap string pyval) :=
  match element_find_href item_element with
  | None => None
  | Some href =>
      let url := if String.prefix "http" href then href else base_url ++ href in
      Some (list_to_map
              [("url", VStr url);
               ("numero_processo", VStr (_extract_process_number (get_text item_element)));
               ("relator", VStr (_extract_relator (get_text item_element)));
               ("tribunal", VStr get_tribunal_name)])
  end.

(** [datetime.now() - timedelta(days=days_back)], as an ordinal day:
    [timedelta] takes at most 999999999 days and the difference has to be
    a date from year 1 to year 9999, else [OverflowError]. *)
Definition start_date (days_back : Z) : result Z :=
  if (Z.abs days_back <=? 999999999) && (1 <=? today - days_back)
     && (today - days_back <=? 3652059)
  then Ok (today - days_back)
  else Raise "date value out of range".

(** The body is one [try]; on any exception the method returns the list
    built so far, which is still empty when the fetch or the parse
    fails. *)
Definition search_recent_decisions (days_back : Z) : list (gmap string pyval) :=
  try_except
    (_ <- start_date days_back ;;
     response <- BaseScraper.get_page (VStr search_url) ;;
     match response with
     | None => Ok []
     | Some text =>
         soup <- parse_html text ;;
         let result_items :=
           or_list (soup_find_all soup "div" (Some "resultado"))
                   (soup_find_all soup "tr" (Some "linha-resultado")) in
         Ok (omap _extract_basic_info result_items)
     end)
    (fun _ => []).

Definition text_of (found : option element) : pyval :=
  match found with
  | Some e => VStr (clean_text_str (Some (get_text e)))
  | None => VStr ""
  end.

Definition _extract_detailed_process_number (s : soup) : pyval :=
  text_of (or_else (soup_find s "span" (Some "processo"))
                   (soup_find s "div" (Some "numero-processo"))).

Definition _extract_detailed_relator (s : soup) : pyval :=
  text_of (or_else (soup_find s "span" (Some "relator"))
                   (soup_find s "div" (Some "relator"))).

Definition date_of (found : option element) : pyval :=
  match found with
  | Some e => VStr (BaseScraper.extract_date (clean_text_str (Some (get_text e))))
  | None => VNone
  end.

Definition _extract_judgment_date (s : soup) : pyval :=
  date_of (or_else (soup_find s "span" (Some "data-julgamento"))
                   (soup_find s "div" (Some "data-julgamento"))).

Definition _extract_publication_date (s : soup) : pyval :=
  date_of (or_else (soup_find s "span" (Some "data-publicacao"))
                   (soup_find s "div" (Some "data-publicacao"))).

Definition _extract_ementa (s : soup) : pyval :=
  text_of (or_else (soup_find s "div" (Some "ementa"))
                   (soup_find s "p" (Some "ementa"))).

Definition _extract_acordao (s : soup) : pyval :=
  text_of (or_else (soup_find s "div" (Some "acordao"))
                   (soup_find s "div" (Some "inteiro-teor"))).

Definition _extract_tags (s : soup) : pyval :=
  let tags_elements :=
    or_list (soup_find_all s "span" (Some "tag"))
            (soup_find_all s "div" (Some "palavra-chave")) in
  let tags := map (fun tag => clean_text_str (Some (get_text tag))) tags_elements in
  VStr (match tags with [] => "" | _ => String.concat ", " tags end).

Definition extract_decision_details (decision_url : pyval)
  : option (gmap string pyval) :=
  try_except
    (response <- BaseScraper.get_page decision_url ;;
     match response with
     | None => Ok None
     | Some text =>
         soup <- parse_html text ;;
         Ok (Some (list_to_map
                     [("tribunal", VStr get_tribunal_name);
                      ("url_origem", decision_url);
                      ("numero_processo", _extract_detailed_process_number soup);
                      ("relator", _extract_detailed_relator soup);
                      ("data_julgamento", _extract_judgment_date soup);
                      ("data_publicacao", _extract_publication_date soup);
                      ("ementa", _extract_ementa soup);
                      ("acordao", _extract_acordao soup);
                      ("tags", _extract_tags soup)]))
     end)
    (fun _ => None).

(** The scraper as an instance of the base class. *)
Definition scraper : BaseScraper.t :=
  {| BaseScraper.get_tribunal_name := get_tribunal_name;
     BaseScraper.search_recent_decisions :=
       fun days_back => Ok (PyDict <$> search_recent_decisions days_back);
     BaseScraper.extract_decision_details :=
       fun decision_url => Ok (extract_decision_details decision_url) |}.

End WithWorld.
End STJScraper.

(** * [src/scrapers/enunciados_scraper.py] *)

Module EnunciadosScraper.
Section WithWorld.
Context `{World}.

(** The dictionary [fonaje_urls], in insertion order. *)
Definition fonaje_urls : list (string * string) :=
  [("civeis", "https://www.cnj.jus.br/programas-e-acoes/juizados-especiais/enunciados-fonaje/enunciados-civeis/");
   ("criminais", "https://www.cnj.jus.br/programas-e-acoes/juizados-especiais/enunciados-fonaje/enunciados-criminais/");
   ("fazenda_publica", "https://www.cnj.jus.br/programas-e-acoes/juizados-especiais/enunciados-fonaje/enunciados-fazenda-publica/")].

Definition cnj_url : string := "https://www.cnj.jus.br/enunciados/".

Definition get_tribunal_name : string := "ENUNCIADOS".

Definition _is_enunciado (text : string) : bool :=
  existsb (fun pattern => bool_decide (is_Some (re_search pattern text [IGNORECASE])))
    ["ENUNCIADO\s+\d+"; "Enunciado\s+\d+"; "ENUNCIADO\s+N[ºº]\s*\d+"].

Definition _parse_enunciado_text (text orgao tipo url : string)
  : option (gmap string pyval) :=
  try_except
    (numero <-
       match re_search "ENUNCIADO\s+N?[ºº]?\s*(\d+)" text [IGNORECASE] with
       | Some numero_match => int (group numero_match 1)
       | None => Ok 0
       end ;;
     let texto_limpo :=
       re_sub "ENUNCIADO\s+N?[ºº]?\s*\d+\s*[-–—]?\s*" "" text [IGNORECASE] in
     let obs_match :=
       re_search "(Obs\.?|Observação|Nota):(.+)" texto_limpo [IGNORECASE; DOTALL] in
     let observacoes :=
       match obs_match with
       | Some m => strip_str (group m 2)
       | None => ""
       end in
     let texto_limpo :=
       match obs_match with
       | Some m => strip_str (substring 0 (start m) texto_limpo)
       | None => texto_limpo
       end in
     Ok (Some (list_to_map
                 [("orgao", VStr orgao);
                  ("tipo", VStr (upper tipo));
                  ("numero", VInt numero);
                  ("texto", VStr (strip_str texto_limpo));
                  ("observacoes", VStr observacoes);
                  ("url_origem", VStr url)])))
    (fun _ => None).

(** The loop shared by the two page scrapers: keep the elements whose
    cleaned text is an enunciado and parses. *)
Definition parse_elements (elements : list element) (orgao tipo url : string)
  : list (gmap string pyval) :=
  omap (fun e =>
          let text := clean_text_str (Some (get_text e)) in
          if _is_enunciado text then _parse_enunciado_text text orgao tipo url
          else None)
       elements.

Definition _scrape_fonaje_enunciados (url tipo : string)
  : list (gmap string pyval) :=
  try_except
    (response <- BaseScraper.get_page (VStr url) ;;
     match response with
     | None => Ok []
     | Some text =>
         soup <- parse_html text ;;
         let enunciado_elements :=
           or_list (soup_find_all soup "p" None)
                   (soup_find_all soup "div" (Some "enunciado")) in
         Ok (parse_elements enunciado_elements "FONAJE" tipo url)
     end)
    (fun _ => []).

Definition _scrape_cnj_enunciados : list (gmap string pyval) :=
  try_except
    (response <- BaseScraper.get_page (VStr cnj_url) ;;
     match response with
     | None => Ok []
     | Some text =>
         soup <- parse_html text ;;
         let enunciado_elements :=
           or_list (soup_find_all soup "div" (Some "enunciado"))
                   (soup_find_all soup "p" None) in
         Ok (parse_elements enunciado_elements "CNJ" "GERAL" cnj_url)
     end)
    (fun _ => []).

Definition get_all_enunciados : list (gmap string pyval) :=
  concat (map (fun '(tipo, url) => _scrape_fonaje_enunciados url tipo) fonaje_urls)
  ++ _scrape_cnj_enunciados.

Definition search_recent_decisions (days_back : Z) : list (gmap string pyval) :=
  get_all_enunciados.

Definition extract_decision_details (decision_url : pyval)
  : option (gmap string pyval) := None.

Definition scraper : BaseScraper.t :=
  {| BaseScraper.get_tribunal_name := get_tribunal_name;
     BaseScraper.search_recent_decisions :=
       fun days_back => Ok (PyDict <$> search_recent_decisions days_back);
     BaseScraper.extract_decision_details :=
       fun decision_url => Ok (extract_decision_details decision_url) |}.

End WithWorld.
End EnunciadosScraper.

(** * [src/services/jurisprudencia_service.py] *)

Module JurisprudenciaService.

(** An entry of the registry [self.scrapers], with the two methods the
    service calls on it. A scraper class that lacks one of them has it
    raise [AttributeError]. *)
Record Scraper : Type := {
  get_recent_jurisprudence : Z -> result (list pyobj);
  get_all_enunciados : result (list pyobj)
}.

(** A court scraper, which inherits [get_recent_jurisprudence]. *)
Definition court_scraper (name : string) (s : BaseScraper.t) : Scraper :=
  {| get_recent_jurisprudence :=
       fun days_back => Ok (PyDict <$> BaseScraper.get_recent_jurisprudence s days_back);
     get_all_enunciados :=
       Raise ("'" ++ name ++ "' object has no attribute 'get_all_enunciados'") |}.

Definition enunciados_scraper `{World} : Scraper :=
  {| get_recent_jurisprudence :=
       fun days_back =>
         Ok (PyDict <$> BaseScraper.get_recent_jurisprudence
                          EnunciadosScraper.scraper days_back);
     get_all_enunciados := Ok (PyDict <$> EnunciadosScraper.get_all_enunciados) |}.

(** The registry built by [__init__], a dictionary in insertion order.
    The scrapers of [stf_scraper.py] and [tjsp_scraper.py] are parameters:
    any two instances of the base class. *)
Definition scrapers `{World} (stf tjsp : BaseScraper.t) : list (string * Scraper) :=
  [("STF", court_scraper "STFScraper" stf);
   ("STJ", court_scraper "STJScraper" STJScraper.scraper);
   ("TJSP", court_scraper "TJSPScraper" tjsp);
   ("ENUNCIADOS", enunciados_scraper)].

Record Results : Type := {
  success : list string;
  errors : list string;
  total_collected : Z
}.

Definition _parse_date (date_string : pyval) : pyval :=
  if negb (truthy date_string) then VNone else VNone.

(** The [try] body of the loop of [_save_jurisprudencia] for one
    [decision]; the state is [db] and [saved_count]. *)
Definition stage_jurisprudencia (decision : pyobj) (st : Database * Z)
  : result (Database * Z) :=
  let '(db, saved_count) := st in
  t <- get decision "tribunal" ;;
  n <- get decision "numero_processo" ;;
  match Session.first_jurisprudencia t n db with
  | Some existing => Ok (db, saved_count)
  | None =>
      t <- get decision "tribunal" ;;
      n <- get decision "numero_processo" ;;
      r <- get decision "relator" ;;
      dj <- get decision "data_julgamento" ;;
      dp <- get decision "data_publicacao" ;;
      e <- get decision "ementa" ;;
      a <- get decision "acordao" ;;
      tg <- get decision "tags" ;;
      u <- get decision "url_origem" ;;
      let row :=
        {| tribunal := t; numero_processo := n; relator := r;
           data_julgamento := _parse_date dj;
           data_publicacao := _parse_date dp;
           ementa := e; acordao := a; tags := tg; url_origem := u |} in
      Ok (Session.add_jurisprudencia row db, saved_count + 1)
  end.

(** [commit_accepted] is the outcome of the commit that ends the batch. *)
Definition _save_jurisprudencia (commit_accepted : bool) (decisions : list pyobj)
    (db : Database) : Z * Database :=
  let '(db, saved_count) :=
    fold_left
      (fun st decision => try_except (stage_jurisprudencia decision st) (fun _ => st))
      decisions (db, 0) in
  try_except
    (db' <- Session.commit commit_accepted db ;; Ok (saved_count, db'))
    (fun _ => (0, Session.rollback db)).

Definition stage_enunciado (enunciado_data : pyobj) (st : Database * Z)
  : result (Database * Z) :=
  let '(db, saved_count) := st in
  o <- get enunciado_data "orgao" ;;
  t <- get enunciado_data "tipo" ;;
  n <- get enunciado_data "numero" ;;
  match Session.first_enunciado o t n db with
  | Some existing => Ok (db, saved_count)
  | None =>
      o <- get enunciado_data "orgao" ;;
      t <- get enunciado_data "tipo" ;;
      n <- get enunciado_data "numero" ;;
      tx <- get enunciado_data "texto" ;;
      ob <- get enunciado_data "observacoes" ;;
      u <- get enunciado_data "url_origem" ;;
      let row :=
        {| orgao := o; tipo := t; numero := n; texto := tx; observacoes := ob;
           enunciado_url_origem := u |} in
      Ok (Session.add_enunciado row db, saved_count + 1)
  end.

Definition _save_enunciados (commit_accepted : bool) (enunciados : list pyobj)
    (db : Database) : Z * Database :=
  let '(db, saved_count) :=
    fold_left
      (fun st enunciado_data =>
         try_except (stage_enunciado enunciado_data st) (fun _ => st))
      enunciados (db, 0) in
  try_except
    (db' <- Session.commit commit_accepted db ;; Ok (saved_count, db'))
    (fun _ => (0, Session.rollback db)).

(** One turn of the loop of [collect_all_recent_jurisprudence].
    [commit_accepted] gives, for each source, the outcome of the commit
    of its batch in this run. *)
Definition collect_from (days_back : Z) (commit_accepted : string -> bool)
    (st : Results * Database) (entry : string * Scraper) : Results * Database :=
  let '(results, db) := st in
  let '(tribunal_name, scraper) := entry in
  try_except
    (if String.eqb tribunal_name "ENUNCIADOS" then
       enunciados <- get_all_enunciados scraper ;;
       let '(saved_count, db') :=
         _save_enunciados (commit_accepted tribunal_name) enunciados db in
       Ok ({| success := success results
                ++ [tribunal_name ++ ": " ++ str saved_count ++ " enunciados coletados"];
              errors := errors results;
              total_collected := total_collected results + saved_count |}, db')
     else
       decisions <- get_recent_jurisprudence scraper days_back ;;
       let '(saved_count, db') :=
         _save_jurisprudencia (commit_accepted tribunal_name) decisions db in
       Ok ({| success := success results
                ++ [tribunal_name ++ ": " ++ str saved_count ++ " decisões coletadas"];
              errors := errors results;
              total_collected := total_collected results + saved_count |}, db'))
    (fun e =>
       ({| success := success results;
           errors := errors results ++ ["Erro na coleta do " ++ tribunal_name ++ ": " ++ e];
           total_collected := total_collected results |}, db)).

Definition collect_all_recent_jurisprudence (registry : list (string * Scraper))
    (days_back : Z) (commit_accepted : string -> bool) (db : Database)
  : Results * Database :=
  fold_left (collect_from days_back commit_accepted) registry
    ({| success := []; errors := []; total_collected := 0 |}, db).

End JurisprudenciaService.

(** * The scheduler: [apscheduler], as the service uses it *)

Record CronTrigger : Type := { hour : Z; minute : Z; timezone : string }.

Record Job : Type := {
  name : string;
  func : string;
  trigger : CronTrigger;
  max_instances : Z;
  misfire_grace_time : option Z
}.

(** A [BackgroundScheduler]: its jobs by id, and whether it was started. *)
Record BackgroundScheduler : Type := {
  jobs : gmap string Job;
  running : bool
}.

Module APScheduler.

(** [CronTrigger(hour=h, minute=m, timezone=tz)] checks its fields and
    raises [ValueError] outside their ranges. *)
Definition cron_trigger (h m : Z) (tz : string) : result CronTrigger :=
  if (0 <=? h) && (h <=? 23) && (0 <=? m) && (m <=? 59)
  then Ok {| hour := h; minute := m; timezone := tz |}
  else Raise "Error validating expression".

Definition get_job (job_id : string) (s : BackgroundScheduler) : option Job :=
  jobs s !! job_id.

Definition get_jobs (s : BackgroundScheduler) : list (string * Job) :=
  map_to_list (jobs s).

(** [remove_job(job_id)] raises [JobLookupError] for an unknown id. *)
Definition remove_job (job_id : string) (s : BackgroundScheduler)
  : result BackgroundScheduler :=
  match jobs s !! job_id with
  | Some _ => Ok {| jobs := delete job_id (jobs s); running := running s |}
  | None => Raise ("No job by the id of " ++ job_id ++ " was found")
  end.

(** [add_job(..., id=job_id, replace_existing=True)]. *)
Definition add_job (job_id : string) (job : Job) (s : BackgroundScheduler)
  : BackgroundScheduler :=
  {| jobs := <[job_id := job]> (jobs s); running := running s |}.

(** [start()] raises [SchedulerAlreadyRunningError] on a running
    scheduler. *)
Definition start (s : BackgroundScheduler) : result BackgroundScheduler :=
  if running s then Raise "Scheduler is already running"
  else Ok {| jobs := jobs s; running := true |}.

End APScheduler.

(** A JSON value of a reply, and a reply body with its members in the
    order of the source. *)
Inductive jval : Type :=
  | JBool (b : bool)
  | JStr (s : string).

Definition json : Type := list (string * jval).

(** [result.get('success')], as a truth value. *)
Definition json_success (body : json) : bool :=
  match List.find (fun kv => String.eqb (fst kv) "success") body with
  | Some (_, JBool b) => b
  | Some (_, JStr s) => negb (String.eqb s "")
  | None => false
  end.

(** * [src/services/scheduler_service.py] *)

Module SchedulerService.

(** [self.scheduler] is [None] until [init_app] has run. *)
Record t : Type := { scheduler : option BackgroundScheduler }.

Definition remove_job (job_id : string) (self : t) : json * t :=
  try_except
    (match scheduler self with
     | None =>
         Ok ([("success", JBool false); ("message", JStr "Scheduler não inicializado")],
             self)
     | Some s =>
         match APScheduler.get_job job_id s with
         | Some _ =>
             s' <- APScheduler.remove_job job_id s ;;
             Ok ([("success", JBool true);
                  ("message", JStr ("Job " ++ job_id ++ " removido com sucesso"))],
                 {| scheduler := Some s' |})
         | None =>
             Ok ([("success", JBool false); ("message", JStr "Job não encontrado")], self)
         end
     end)
    (fun e => ([("success", JBool false); ("error", JStr e)], self)).

(** An entry of [get_scheduled_jobs()]; [next_run], which depends on the
    clock, is left out. *)
Record job_info : Type := {
  info_id : string;
  info_name : string;
  info_trigger : CronTrigger;
  info_func : string
}.

Definition get_scheduled_jobs (self : t) : list job_info :=
  match scheduler self with
  | None => []
  | Some s =>
      map (fun '(job_id, job) =>
             {| info_id := job_id; info_name := name job;
                info_trigger := trigger job; info_func := func job |})
          (APScheduler.get_jobs s)
  end.

(** [add_daily_jurisprudence_job()]. An exception leaves the scheduler as
    the statements before it made it. *)
Definition add_daily_jurisprudence_job (self : t) : t :=
  match scheduler self with
  | None => self
  | Some s =>
      match
        (match APScheduler.get_job "daily_jurisprudence" s with
         | Some _ => APScheduler.remove_job "daily_jurisprudence" s
         | None => Ok s
         end)
      with
      | Raise _ => self
      | Ok s1 =>
          match APScheduler.cron_trigger 9 0 "America/Sao_Paulo" with
          | Raise _ => {| scheduler := Some s1 |}
          | Ok trigger =>
              {| scheduler :=
                   Some (APScheduler.add_job "daily_jurisprudence"
                           {| name := "Coleta Diária de Jurisprudência";
                              func := "collect_daily_jurisprudence";
                              trigger := trigger;
                              max_instances := 1;
                              misfire_grace_time := Some 3600 |} s1) |}
          end
      end
  end.



(** [collect_daily_jurisprudence()]: a new [JurisprudenciaService] and its
    run over one day. [self.app] is set by [init_app], as the scheduler
    is. *)
Definition collect_daily_jurisprudence `{World} (stf tjsp : BaseScraper.t)
    (commit_accepted : string -> bool) (db : Database)
  : JurisprudenciaService.Results * Database :=
  JurisprudenciaService.collect_all_recent_jurisprudence
    (JurisprudenciaService.scrapers stf tjsp) 1 commit_accepted db.

(** The reply of [run_job_now]: a body that reports a failure, or
    [{'success': True, 'results': results}]. *)
Inductive run_reply : Type :=
  | NotRun (body : json)
  | Ran (results : JurisprudenciaService.Results).

(** [run_job_now(job_id)]. *)
Definition run_job_now `{World} (stf tjsp : BaseScraper.t)
    (commit_accepted : string -> bool) (job_id : string) (self : t) (db : Database)
  : run_reply * Database :=
  match scheduler self with
  | None =>
      (NotRun [("success", JBool false); ("message", JStr "Scheduler não inicializado")],
       db)
  | Some s =>
      match APScheduler.get_job job_id s with
      | None =>
          (NotRun [("success", JBool false); ("message", JStr "Job não encontrado")], db)
      | Some _ =>
          if String.eqb job_id "daily_jurisprudence" then
            let '(results, db') :=
              collect_daily_jurisprudence stf tjsp commit_accepted db in
            (Ran results, db')
          else
            (NotRun [("success", JBool false);
                     ("message", JStr "Job não suportado para execução manual")], db)
      end
  end.

(** The [trigger_config] of [add_custom_job]: ['type'], and the integer
    ['hour'] and ['minute'] when given. *)
Record trigger_config : Type := {
  trigger_type : option string;
  config_hour : option Z;
  config_minute : option Z
}.

(** [add_custom_job(func, trigger_config, job_id, name)]. The job
    registered under [job_id] is removed before the trigger is built, and
    an exception raised after that leaves it removed. *)
Definition add_custom_job (func : string) (config : trigger_config)
    (job_id name : string) (self : t) : json * t :=
  match scheduler self with
  | None =>
      ([("success", JBool false);
        ("error", JStr "'NoneType' object has no attribute 'get_job'")], self)
  | Some s =>
      match
        (match APScheduler.get_job job_id s with
         | Some _ => APScheduler.remove_job job_id s
         | None => Ok s
         end)
      with
      | Raise e => ([("success", JBool false); ("error", JStr e)], self)
      | Ok s1 =>
          let removed := {| scheduler := Some s1 |} in
          match trigger_type config with
          | None => ([("success", JBool false); ("error", JStr "'type'")], removed)
          | Some type =>
              if String.eqb type "cron" then
                match
                  APScheduler.cron_trigger (default 0 (config_hour config))
                    (default 0 (config_minute config)) "America/Sao_Paulo"
                with
                | Raise e => ([("success", JBool false); ("error", JStr e)], removed)
                | Ok trigger =>
                    ([("success", JBool true);
                      ("message", JStr ("Job " ++ name ++ " adicionado com sucesso"))],
                     {| scheduler :=
                          Some (APScheduler.add_job job_id
                                  {| name := name; func := func; trigger := trigger;
                                     max_instances := 1;
                                     misfire_grace_time := None |} s1) |})
                end
              else
                ([("success", JBool false);
                  ("error", JStr ("Tipo de trigger não suportado: " ++ type))], removed)
          end
      end
  end.

End SchedulerService.

(** * [src/routes/scheduler.py] *)

Module Routes.

Record Response : Type := { body : json; status : Z }.

Definition internal_error (e : string) : Response :=
  {| body := [("success", JBool false); ("message", JStr ("Erro interno: " ++ e))];
     status := 500 |}.

(** [DELETE /jobs/<job_id>]. *)
Definition remove_job (job_id : string) (scheduler_service : SchedulerService.t)
  : Response * SchedulerService.t :=
  try_except
    (if String.eqb job_id "daily_jurisprudence" then
       Ok ({| body := [("success", JBool false);
                       ("message", JStr "Não é possível remover o job principal de coleta diária")];
              status := 400 |}, scheduler_service)
     else
       let '(result, scheduler_service') :=
         SchedulerService.remove_job job_id scheduler_service in
       Ok ({| body := result;
              status := if json_success result then 200 else 400 |},
           scheduler_service'))
    (fun e => (internal_error e, scheduler_service)).

(** [f'{n:02d}']: the decimal digits, with a zero in front when that
    gives fewer than two characters. *)
Definition format_02d (n : Z) : string :=
  let s := str n in
  if (String.length s <? 2)%nat then "0" ++ s else s.

(** [PUT /schedule-config]. [data] is the JSON body of the request, an
    object with integer members, or [None] when there is none. An
    exception raised after the current job was removed leaves it
    removed. *)
Definition update_schedule_config (data : option (gmap string Z))
    (scheduler_service : SchedulerService.t) : Response * SchedulerService.t :=
  match data with
  | None =>
      ({| body := [("success", JBool false);
                   ("message", JStr "Dados de configuração são obrigatórios")];
          status := 400 |}, scheduler_service)
  | Some data =>
      if bool_decide (data = ∅) then
        ({| body := [("success", JBool false);
                     ("message", JStr "Dados de configuração são obrigatórios")];
            status := 400 |}, scheduler_service)
      else
        let hour := data !! "hour" in
        let minute := default 0 (data !! "minute") in
        match hour with
        | None =>
            ({| body := [("success", JBool false);
                         ("message", JStr "Hora deve estar entre 0 e 23")];
                status := 400 |}, scheduler_service)
        | Some hour =>
            if negb ((0 <=? hour) && (hour <=? 23)) then
              ({| body := [("success", JBool false);
                           ("message", JStr "Hora deve estar entre 0 e 23")];
                  status := 400 |}, scheduler_service)
            else if negb ((0 <=? minute) && (minute <=? 59)) then
              ({| body := [("success", JBool false);
                           ("message", JStr "Minuto deve estar entre 0 e 59")];
                  status := 400 |}, scheduler_service)
            else
              let '(_, removed) :=
                SchedulerService.remove_job "daily_jurisprudence" scheduler_service in
              try_except
                (match SchedulerService.scheduler removed with
                 | None => Raise "'NoneType' object has no attribute 'add_job'"
                 | Some s =>
                     trigger <- APScheduler.cron_trigger hour minute "America/Sao_Paulo" ;;
                     let job :=
                       {| name := "Coleta Diária de Jurisprudência";
                          func := "collect_daily_jurisprudence";
                          trigger := trigger;
                          max_instances := 1;
                          misfire_grace_time := Some 3600 |} in
                     let s' := APScheduler.add_job "daily_jurisprudence" job s in
                     Ok ({| body :=
                              [("success", JBool true);
                               ("message", JStr ("Agendamento atualizado para "
                                  ++ format_02d hour ++ ":" ++ format_02d minute));
                               ("new_schedule", JStr (format_02d hour ++ ":" ++ format_02d minute))];
                            status := 200 |},
                         {| SchedulerService.scheduler := Some s' |})
                 end)
                (fun e => (internal_error e, removed))
        end
  end.

(** [GET /jobs]: the jobs and their number. *)
Definition get_scheduled_jobs (scheduler_service : SchedulerService.t)
  : list SchedulerService.job_info * Z :=
  let jobs := SchedulerService.get_scheduled_jobs scheduler_service in
  (jobs, Z.of_nat (length jobs)).

Record RunResponse : Type := {
  run_body : SchedulerService.run_reply;
  run_status : Z
}.

(** [POST /jobs/<job_id>/run]. *)
Definition run_job_now `{World} (stf tjsp : BaseScraper.t)
    (commit_accepted : string -> bool) (job_id : string)
    (scheduler_service : SchedulerService.t) (db : Database)
  : RunResponse * Database :=
  let '(result, db') :=
    SchedulerService.run_job_now stf tjsp commit_accepted job_id scheduler_service db in
  ({| run_body := result;
      run_status :=
        match result with
        | SchedulerService.Ran _ => 200
        | SchedulerService.NotRun body => if json_success body then 200 else 400
        end |}, db').

Record CollectResponse : Type := {
  collect_message : string;
  collect_results : JurisprudenciaService.Results;
  collect_status : Z
}.

(** [POST /collect-now]. [data] is the JSON body of the request, an
    object with integer members, or [None] when there is none;
    [days_back] is 1 when the body does not give it. *)
Definition collect_jurisprudence_now `{World} (stf tjsp : BaseScraper.t)
    (commit_accepted : string -> bool) (data : option (gmap string Z)) (db : Database)
  : CollectResponse * Database :=
  let data := default ∅ data in
  let days_back := default 1 (data !! "days_back") in
  let '(results, db') :=
    JurisprudenciaService.collect_all_recent_jurisprudence
      (JurisprudenciaService.scrapers stf tjsp) days_back commit_accepted db in
  ({| collect_message :=
        "Coleta executada: " ++ str (JurisprudenciaService.total_collected results)
        ++ " itens coletados";
      collect_results := results;
      collect_status := 200 |}, db').

End Routes.

(** * Vocabulary of the statements *)

Module Spec.
Import JurisprudenciaService.

(** The call the service makes on a registry entry. *)
Definition invoke (days_back : Z) (entry : string * Scraper) : result (list pyobj) :=
  if String.eqb (fst entry) "ENUNCIADOS" then get_all_enunciados (snd entry)
  else get_recent_jurisprudence (snd entry) days_back.

(** The save step the service runs on what the call returned. *)
Definition save_batch (commit_accepted : string -> bool) (tribunal_name : string)
    (items : list pyobj) (db : Database) : Z * Database :=
  if String.eqb tribunal_name "ENUNCIADOS"
  then _save_enunciados (commit_accepted tribunal_name) items db
  else _save_jurisprudencia (commit_accepted tribunal_name) items db.

Definition success_message (tribunal_name : string) (saved_count : Z) : string :=
  tribunal_name ++ ": " ++ str saved_count
  ++ (if String.eqb tribunal_name "ENUNCIADOS" then " enunciados coletados"
      else " decisões coletadas").

Definition error_message (tribunal_name e : string) : string :=
  "Erro na coleta do " ++ tribunal_name ++ ": " ++ e.

(** The saved count of each source whose call returned, in registry
    order, the store being threaded through the batches. *)
Fixpoint saved_counts (days_back : Z) (commit_accepted : string -> bool)
    (registry : list (string * Scraper)) (db : Database) : list Z :=
  match registry with
  | [] => []
  | entry :: rest =>
      match invoke days_back entry with
      | Ok items =>
          let '(saved_count, db') := save_batch commit_accepted (fst entry) items db in
          saved_count :: saved_counts days_back commit_accepted rest db'
      | Raise _ => saved_counts days_back commit_accepted rest db
      end
  end.

Definition returns (days_back : Z) (entry : string * Scraper) : Prop :=
  exists items, invoke days_back entry = Ok items.

(** The record [item] needs no write: it is no dictionary, or a row with
    its key is committed. *)
Definition known_jurisprudencia (db : Database) (item : pyobj) : Prop :=
  match item with
  | PyDict d =>
      exists row, row ∈ jurisprudencia db /\
        Session.same_processo (dict_get d "tribunal") (dict_get d "numero_processo") row = true
  | PyOther _ => True
  end.

Definition known_enunciado (db : Database) (item : pyobj) : Prop :=
  match item with
  | PyDict d =>
      exists row, row ∈ enunciados db /\
        Session.same_enunciado (dict_get d "orgao") (dict_get d "tipo")
          (dict_get d "numero") row = true
  | PyOther _ => True
  end.

(** The store after the batches of the sources whose call returned. *)
Fixpoint final_db (days_back : Z) (commit_accepted : string -> bool)
    (registry : list (string * Scraper)) (db : Database) : Database :=
  match registry with
  | [] => db
  | entry :: rest =>
      match invoke days_back entry with
      | Ok items =>
          final_db days_back commit_accepted rest
            (snd (save_batch commit_accepted (fst entry) items db))
      | Raise _ => final_db days_back commit_accepted rest db
      end
  end.

(** The names of the sources whose call returned, and the error entries
    of those whose call raised, in registry order. *)
Definition returned_names (days_back : Z) (registry : list (string * Scraper))
  : list string :=
  omap (fun entry =>
          match invoke days_back entry with
          | Ok _ => Some (fst entry)
          | Raise _ => None
          end) registry.

Definition error_entries (days_back : Z) (registry : list (string * Scraper))
  : list string :=
  omap (fun entry =>
          match invoke days_back entry with
          | Ok _ => None
          | Raise e => Some (error_message (fst entry) e)
          end) registry.

(** The row the service builds from a dictionary. *)
Definition row_of_decision (d : gmap string pyval) : Jurisprudencia :=
  {| tribunal := dict_get d "tribunal";
     numero_processo := dict_get d "numero_processo";
     relator := dict_get d "relator";
     data_julgamento := _parse_date (dict_get d "data_julgamento");
     data_publicacao := _parse_date (dict_get d "data_publicacao");
     ementa := dict_get d "ementa";
     acordao := dict_get d "acordao";
     tags := dict_get d "tags";
     url_origem := dict_get d "url_origem" |}.

Definition row_of_enunciado (d : gmap string pyval) : Enunciado :=
  {| orgao := dict_get d "orgao";
     tipo := dict_get d "tipo";
     numero := dict_get d "numero";
     texto := dict_get d "texto";
     observacoes := dict_get d "observacoes";
     enunciado_url_origem := dict_get d "url_origem" |}.

(** [known_jurisprudencia] or [known_enunciado], by the table the source
    of that name is saved to. *)
Definition known (tribunal_name : string) (db : Database) (item : pyobj) : Prop :=
  if String.eqb tribunal_name "ENUNCIADOS" then known_enunciado db item
  else known_jurisprudencia db item.

Definition sum (counts : list Z) : Z := foldr Z.add 0 counts.

(** The loops of the two save steps, as folds of their turns. *)
Definition stage_all_jurisprudencia (items : list pyobj) (st : Database * Z)
  : Database * Z :=
  fold_left (fun st decision =>
               try_except (stage_jurisprudencia decision st) (fun _ => st)) items st.

Definition stage_all_enunciados (items : list pyobj) (st : Database * Z)
  : Database * Z :=
  fold_left (fun st enunciado_data =>
               try_except (stage_enunciado enunciado_data st) (fun _ => st)) items st.

(** No row is waiting in the session. *)
Definition clean (db : Database) : Prop :=
  new_jurisprudencia db = [] /\ new_enunciados db = [].

Definition is_dict (item : pyobj) : bool :=
  match item with PyDict _ => true | PyOther _ => false end.


(** The daily job with its trigger at [h]:[m]. *)
Definition daily_job (h m : Z) : Job :=
  {| name := "Coleta Diária de Jurisprudência";
     func := "collect_daily_jurisprudence";
     trigger := {| hour := h; minute := m; timezone := "America/Sao_Paulo" |};
     max_instances := 1;
     misfire_grace_time := Some 3600 |}.

Definition rejection (message : string) : Routes.Response :=
  {| Routes.body := [("success", JBool false); ("message", JStr message)];
     Routes.status := 400 |}.

(** The source answers no request: [get_page] gives [None]. *)
Definition unreachable `{World} (url : string) : Prop :=
  BaseScraper.get_page (VStr url) = Ok None.
(** The uniqueness key of a row of each table, and the key a dictionary
    is looked up by. *)
Definition key_of_row (row : Jurisprudencia) : pyval * pyval :=
  (tribunal row, numero_processo row).

Definition key_of_decision (d : gmap string pyval) : pyval * pyval :=
  (dict_get d "tribunal", dict_get d "numero_processo").

Definition key_of_enunciado_row (row : Enunciado) : pyval * pyval * pyval :=
  (orgao row, tipo row, numero row).

Definition key_of_enunciado (d : gmap string pyval) : pyval * pyval * pyval :=
  (dict_get d "orgao", dict_get d "tipo", dict_get d "numero").

(** The rows a batch adds to the session when the lookup sees the rows
    [seen]: one for each dictionary whose key no row seen so far has. *)
Fixpoint staged {Row Key : Type} `{EqDecision Key} (key : Row -> Key)
    (key_of : gmap string pyval -> Key) (row_of : gmap string pyval -> Row)
    (seen : list Row) (items : list pyobj) : list Row :=
  match items with
  | [] => []
  | PyOther _ :: rest => staged key key_of row_of seen rest
  | PyDict d :: rest =>
      if bool_decide (key_of d ∈ key <$> seen) then staged key key_of row_of seen rest
      else row_of d :: staged key key_of row_of (seen ++ [row_of d])%list rest
  end.

(** No two rows that the lookup sees share a key. *)
Definition unique_keys (db : Database) : Prop :=
  NoDup (key_of_row <$> (jurisprudencia db ++ new_jurisprudencia db)%list) /\
  NoDup (key_of_enunciado_row <$> (enunciados db ++ new_enunciados db)%list).

(** The number of committed rows. *)
Definition rows (db : Database) : Z :=
  Z.of_nat (length (jurisprudencia db) + length (enunciados db)).

(** What the loop of [get_recent_jurisprudence] asks for one candidate:
    [self.extract_decision_details(decision.get('url'))]. *)
Definition details_of (self : BaseScraper.t) (decision : pyobj)
  : result (option (gmap string pyval)) :=
  url <- get decision "url" ;; BaseScraper.extract_decision_details self url.

(** [days_back] gives a start date that [datetime] can hold. *)
Definition in_window `{World} (days_back : Z) : Prop :=
  Z.abs days_back <= 999999999 /\ 1 <= today - days_back <= 3652059.

(** A text that [clean_text] leaves as it is. *)
Definition normalised (v : pyval) : Prop :=
  exists s, v = VStr s /\ clean_text_str (Some s) = s.





(** The body, the kind and the page of the enunciados of each of the four
    pages the scraper reads. *)
Definition page_labels : list (pyval * pyval * pyval) :=
  (map (fun '(tipo, url) => (VStr "FONAJE", VStr (upper tipo), VStr url))
     EnunciadosScraper.fonaje_urls
   ++ [(VStr "CNJ", VStr "GERAL", VStr EnunciadosScraper.cnj_url)])%list.

End Spec.

(** * A small world to run the definitions in

    Pages are named by their text; the search page of the STJ lists two
    decisions, of which the second cannot be fetched. *)
Module Sample.

Definition pages (url : string) : http_outcome :=
  if String.eqb url STJScraper.search_url then HttpResponse 200 "list"
  else if String.eqb url "https://www.stj.jus.br/d/1" then HttpResponse 200 "doc1"
  else if String.eqb url "https://www.stj.jus.br/d/2" then HttpResponse 404 "gone"
  else RequestException "unreachable".

Definition divs (s tag : string) (class : option string)
  : list (string * string) :=
  if String.eqb s "list" && String.eqb tag "div"
     && bool_decide (class = Some "resultado")
  then [("/d/1", "REsp 1"); ("/d/2", "REsp 2")]
  else [].

Definition first_div (s tag : string) (class : option string)
  : option (string * string) :=
  if String.eqb s "doc1" && String.eqb tag "div" && bool_decide (class = Some "ementa")
  then Some ("", "  Recurso   especial ")
  else None.

Definition world : World :=
  {| http_get := pages;
     today := 739000;
     soup := string;
     element := string * string;
     parse_html := fun text => Ok text;
     soup_find_all := divs;
     soup_find := first_div;
     element_find_href := fun e => Some (fst e);
     get_text := snd;
     re_search := fun _ _ _ => None;
     re_sub := fun _ _ text _ => text;
     int := fun _ => Raise "invalid literal for int()" |}.

(** A world in which no request is answered. *)
Definition offline : World :=
  {| http_get := fun _ => RequestException "unreachable";
     today := 739000;
     soup := string;
     element := string * string;
     parse_html := fun text => Ok text;
     soup_find_all := divs;
     soup_find := first_div;
     element_find_href := fun e => Some (fst e);
     get_text := snd;
     re_search := fun _ _ _ => None;
     re_sub := fun _ _ text _ => text;
     int := fun _ => Raise "invalid literal for int()" |}.

Definition decision (t n : string) : pyobj :=
  PyDict (list_to_map [("tribunal", VStr t); ("numero_processo", VStr n);
                       ("ementa", VStr "ementa")]).

(** A scraper that returns the given records, and one that raises. *)
Definition fixed (items : list pyobj) : JurisprudenciaService.Scraper :=
  {| JurisprudenciaService.get_recent_jurisprudence := fun _ => Ok items;
     JurisprudenciaService.get_all_enunciados := Ok items |}.

Definition failing (e : string) : JurisprudenciaService.Scraper :=
  {| JurisprudenciaService.get_recent_jurisprudence := fun _ => Raise e;
     JurisprudenciaService.get_all_enunciados := Raise e |}.

Definition empty_db : Database :=
  {| jurisprudencia := []; enunciados := [];
     new_jurisprudencia := []; new_enunciados := [] |}.

(** A store that already holds the decision STF 1, collected earlier
    with another summary. *)
Definition stored : Database :=
  {| jurisprudencia :=
       [{| tribunal := VStr "STF"; numero_processo := VStr "1"; relator := VNone;
           data_julgamento := VNone; data_publicacao := VNone;
           ementa := VStr "first"; acordao := VNone; tags := VNone;
           url_origem := VNone |}];
     enunciados := [];
     new_jurisprudencia := [];
     new_enunciados := [] |}.

Definition stf : string * JurisprudenciaService.Scraper :=
  ("STF", fixed [decision "STF" "1"; PyOther "NoneType"; decision "STF" "2"]).

Definition stj : string * JurisprudenciaService.Scraper := ("STJ", failing "boom").

Definition tjsp : string * JurisprudenciaService.Scraper :=
  ("TJSP", fixed [decision "TJSP" "7"; decision "STF" "1"]).

(** The storage refuses the commit of the batch of TJSP. *)
Definition tjsp_refused (tribunal_name : string) : bool :=
  negb (String.eqb tribunal_name "TJSP").

Definition started : SchedulerService.t :=
  {| SchedulerService.scheduler :=
       Some {| jobs := {[ "daily_jurisprudence" := Spec.daily_job 9 0 ]};
               running := true |} |}.

(** A scraper whose second candidate is no dictionary, and one whose
    detail page of the second candidate raises. *)
Definition candidate (url : string) : pyobj := PyDict {[ "url" := VStr url ]}.

Definition details (url : pyval) : gmap string pyval := {[ "url_origem" := url ]}.

Definition broken_candidate : BaseScraper.t :=
  {| BaseScraper.get_tribunal_name := "TJSP";
     BaseScraper.search_recent_decisions :=
       fun _ => Ok [candidate "a"; PyOther "NoneType"; candidate "b"];
     BaseScraper.extract_decision_details := fun url => Ok (Some (details url)) |}.

(** A scheduler with the daily job and a custom one. *)
Definition weekly : Job :=
  {| name := "Relatório";
     func := "report";
     trigger := {| hour := 7; minute := 30; timezone := "America/Sao_Paulo" |};
     max_instances := 1;
     misfire_grace_time := None |}.

Definition busy : SchedulerService.t :=
  {| SchedulerService.scheduler :=
       Some {| jobs := {[ "daily_jurisprudence" := Spec.daily_job 9 0;
                          "report" := weekly ]};
               running := true |} |}.


(** A world in which the page of the CNJ holds one enunciado. *)
Definition cnj_world : World :=
  {| http_get := fun url =>
       if String.eqb url EnunciadosScraper.cnj_url then HttpResponse 200 "cnj"
       else RequestException "unreachable";
     today := 739000;
     soup := string;
     element := string * string;
     parse_html := fun text => Ok text;
     soup_find_all := fun s tag class =>
       if String.eqb s "cnj" && String.eqb tag "div"
          && bool_decide (class = Some "enunciado")
       then [("", "ENUNCIADO 5 - Cabe recurso.")] else [];
     soup_find := fun _ _ _ => None;
     element_find_href := fun e => Some (fst e);
     get_text := snd;
     re_search := fun pattern _ _ =>
       if String.prefix "(Obs" pattern then None
       else Some {| group := fun _ => "5"; start := 0 |};
     re_sub := fun _ _ _ _ => "Cabe recurso.";
     int := fun _ => Ok 5 |}.

End Sample.

Local Open Scope list_scope.

(** * Properties of [clean_text] *)

Section CleanTextFacts.
Context {char : Type} `{PyChar char}.

Local Abbreviation no_space := (Forall (fun c : char => isspace c = false)).

Lemma split_aux_words (word text : list char) :
  no_space word -> Forall is_word (split_aux word text).
Proof.
  revert word. induction text as [|c rest IH]; intros word Hword; simpl.
  - destruct word; [constructor|]. constructor; [by split | constructor].
  - destruct (isspace c) eqn:Hc.
    + destruct word.
      * apply IH. constructor.
      * constructor; [by split | apply IH; constructor].
    + apply IH. apply Forall_app. split; [done | by repeat constructor].
Qed.

Lemma split_words (text : list char) : Forall is_word (split text).
Proof. apply split_aux_words. constructor. Qed.

Lemma split_aux_run (w word rest : list char) :
  no_space w -> split_aux word (w ++ rest) = split_aux (word ++ w) rest.
Proof.
  revert word. induction w as [|c w IH]; intros word Hw; simpl.
  - by rewrite app_nil_r.
  - inversion Hw as [|? ? Hc Hw']; subst. rewrite Hc, IH by done.
    by rewrite <- app_assoc.
Qed.

Lemma join_cons_cons (w w2 : list char) (ws : list (list char)) :
  join [blank] (w :: w2 :: ws) = w ++ blank :: join [blank] (w2 :: ws).
Proof. done. Qed.

Lemma split_aux_blank (word rest : list char) :
  split_aux word (blank :: rest)
  = match word with [] => split_aux [] rest | _ => word :: split_aux [] rest end.
Proof. simpl. by rewrite isspace_blank. Qed.

Lemma split_join (words : list (list char)) :
  Forall is_word words -> split (join [blank] words) = words.
Proof.
  unfold split. induction words as [|w ws IH]; intros Hws; [done|].
  inversion Hws as [|? ? [Hne Hw] Hws']; subst.
  destruct ws as [|w2 ws].
  - simpl. pose proof (split_aux_run w [] [] Hw) as Hrun.
    rewrite app_nil_r in Hrun. rewrite Hrun. simpl. by destruct w.
  - rewrite join_cons_cons, split_aux_run, split_aux_blank by done.
    destruct w; [done|]. by rewrite IH.
Qed.

Lemma join_head (w : list char) (ws : list (list char)) :
  w <> [] -> head (join [blank] (w :: ws)) = head w.
Proof. intros Hne. destruct ws; [done|]. simpl. by destruct w. Qed.

Lemma join_trimmed (words : list (list char)) :
  Forall is_word words -> trimmed (join [blank] words).
Proof.
  intros Hws. split.
  - destruct Hws as [|w ws [Hne Hw] _]; [done|].
    intros c. rewrite join_head by done. destruct w; [done|].
    inversion Hw; subst. simpl. congruence.
  - induction Hws as [|w ws [Hne Hw] Hws IH]; [done|].
    destruct ws as [|w2 ws].
    + simpl. intros c Hc. apply last_Some_elem_of in Hc.
      by eapply Forall_forall in Hw.
    + rewrite join_cons_cons.
      intros c. rewrite last_app, last_cons.
      destruct (last (join [blank] (w2 :: ws))) as [y|] eqn:Hlast.
      * intros [= <-]. by apply IH.
      * apply last_None in Hlast. inversion Hws as [|? ? [Hne2 _] _]; subst.
        assert (Hh := join_head w2 ws Hne2). rewrite Hlast in Hh.
        by destruct w2.
Qed.

Lemma lstrip_trimmed (text : list char) :
  (forall c, head text = Some c -> isspace c = false) -> lstrip text = text.
Proof. destruct text as [|c rest]; [done|]. intros Hc. simpl. by rewrite Hc. Qed.

Lemma strip_trimmed (text : list char) : trimmed text -> strip text = text.
Proof.
  intros [Hhead Hlast]. unfold strip, rstrip. rewrite (lstrip_trimmed text) by done.
  rewrite lstrip_trimmed; [apply reverse_involutive|].
  intros c. rewrite head_reverse. apply Hlast.
Qed.

Lemma no_space_run_cons (c : char) (text : list char) :
  isspace c = false -> no_space_run (c :: text) = no_space_run text.
Proof. intros Hc. destruct text; [done|]. simpl. by rewrite Hc. Qed.

Lemma no_space_run_before (c : char) (text : list char) :
  (forall c', head text = Some c' -> isspace c' = false) ->
  no_space_run (c :: text) = no_space_run text.
Proof.
  destruct text as [|c' rest]; [done|]. intros Hc'. simpl.
  by rewrite (Hc' c' eq_refl), andb_false_r.
Qed.

Lemma no_space_run_app (w text : list char) :
  no_space w -> no_space_run (w ++ text) = no_space_run text.
Proof.
  induction 1 as [|c w Hc Hw IH]; [done|].
  simpl app. by rewrite no_space_run_cons.
Qed.

Lemma join_no_space_run (words : list (list char)) :
  Forall is_word words -> no_space_run (join [blank] words) = true.
Proof.
  induction 1 as [|w ws [Hne Hw] Hws IH]; [done|].
  destruct ws as [|w2 ws].
  - simpl. rewrite <- (app_nil_r w). by rewrite no_space_run_app.
  - rewrite join_cons_cons.
    rewrite no_space_run_app by done.
    rewrite no_space_run_before; [done|]. by apply join_trimmed.
Qed.

(** The result of [clean_text] is its words joined by single blanks. *)
Lemma clean_text_join (text : option (list char)) :
  exists words, Forall is_word words /\ clean_text text = join [blank] words.
Proof.
  destruct text as [[|c t]|]; [by exists []| |by exists []].
  exists (split (c :: t)). split; [apply split_words|].
  unfold clean_text. apply strip_trimmed, join_trimmed, split_words.
Qed.

Lemma clean_text_again (words : list (list char)) :
  Forall is_word words ->
  clean_text (Some (join [blank] words)) = join [blank] words.
Proof.
  intros Hws. destruct (join [blank] words) as [|c t] eqn:Hj; [done|].
  unfold clean_text. rewrite <- Hj, split_join by done.
  by apply strip_trimmed, join_trimmed.
Qed.

(** C10. [clean_text] gives the empty string for an absent and for an
    empty text; for every text its result starts and ends with no space
    character, has no two space characters in a row, and is a fixed point
    of [clean_text]. *)
Theorem clean_text_idempotent_total :
  clean_text None = [] /\ clean_text (Some []) = [] /\
  forall text : option (list char),
    trimmed (clean_text text) /\
    no_space_run (clean_text text) = true /\
    clean_text (Some (clean_text text)) = clean_text text.
Proof.
  split; [done|]. split; [done|]. intros text.
  destruct (clean_text_join text) as (words & Hws & ->).
  split; [by apply join_trimmed|]. split; [by apply join_no_space_run|].
  by apply clean_text_again.
Qed.
End CleanTextFacts.

(** * Properties of the scrapers *)

Section ScraperFacts.
Context `{World}.

(** A failed fetch ends the search of the STJ with no candidate, whatever
    [days_back] is. *)
Lemma stj_search_unreachable (days_back : Z) :
  Spec.unreachable STJScraper.search_url ->
  STJScraper.search_recent_decisions days_back = [].
Proof.
  unfold Spec.unreachable, STJScraper.search_recent_decisions. intros Hpage.
  destruct (STJScraper.start_date days_back); cbn [bind]; [|done].
  by rewrite Hpage.
Qed.

Lemma fonaje_unreachable (url tipo : string) :
  Spec.unreachable url -> EnunciadosScraper._scrape_fonaje_enunciados url tipo = [].
Proof.
  unfold Spec.unreachable, EnunciadosScraper._scrape_fonaje_enunciados.
  by intros ->.
Qed.

Lemma cnj_unreachable :
  Spec.unreachable EnunciadosScraper.cnj_url ->
  EnunciadosScraper._scrape_cnj_enunciados = [].
Proof.
  unfold Spec.unreachable, EnunciadosScraper._scrape_cnj_enunciados.
  by intros ->.
Qed.

Lemma enunciados_unreachable :
  Forall Spec.unreachable
    (EnunciadosScraper.cnj_url :: map snd EnunciadosScraper.fonaje_urls) ->
  EnunciadosScraper.get_all_enunciados = [].
Proof.
  unfold EnunciadosScraper.fonaje_urls. simpl map.
  rewrite !Forall_cons. intros (Hcnj & H1 & H2 & H3 & _).
  unfold EnunciadosScraper.get_all_enunciados, EnunciadosScraper.fonaje_urls.
  simpl. by rewrite !fonaje_unreachable, cnj_unreachable.
Qed.

(** The loop of [get_recent_jurisprudence] for a scraper whose
    [extract_decision_details] returns [f url], never the empty
    dictionary, on candidates that are dictionaries. *)
Lemma extract_all_omap (self : BaseScraper.t)
    (f : pyval -> option (gmap string pyval))
    (candidates acc : list (gmap string pyval)) :
  (forall url, BaseScraper.extract_decision_details self url = Ok (f url)) ->
  (forall url, f url <> Some ∅) ->
  BaseScraper.extract_all self (PyDict <$> candidates) acc
  = Ok (acc ++ omap (fun c => f (dict_get c "url")) candidates).
Proof.
  intros Hextract Hfull. revert acc.
  induction candidates as [|c cs IH]; intros acc; simpl.
  - by rewrite app_nil_r.
  - rewrite Hextract. simpl. rewrite IH.
    destruct (f (dict_get c "url")) as [d|] eqn:Hd; [|done].
    rewrite bool_decide_eq_false_2 by (intros ->; by eapply Hfull).
    by rewrite <- app_assoc.
Qed.

Lemma stj_details_not_empty (decision_url : pyval) :
  STJScraper.extract_decision_details decision_url <> Some ∅.
Proof.
  unfold STJScraper.extract_decision_details.
  destruct (BaseScraper.get_page decision_url) as [[text|]|]; simpl; [|done..].
  destruct (parse_html text); simpl; [|done].
  intros Hempty. apply (inj Some) in Hempty.
  by apply insert_non_empty in Hempty.
Qed.

(** C6. When the page it searches cannot be fetched, [get_page] giving
    [None], a scraper returns the empty list of candidates and raises
    nothing, so the composite collection is empty too: for the STJ, whose
    search page is [search_url], and for the enunciados, whose pages are
    the four of FONAJE and CNJ. *)
Theorem unreachable_source_gives_no_candidates (days_back : Z) :
  (Spec.unreachable STJScraper.search_url ->
     BaseScraper.search_recent_decisions STJScraper.scraper days_back = Ok [] /\
     BaseScraper.get_recent_jurisprudence STJScraper.scraper days_back = [] /\
     Spec.invoke days_back
       ("STJ", JurisprudenciaService.court_scraper "STJScraper" STJScraper.scraper)
     = Ok []) /\
  (Forall Spec.unreachable
     (EnunciadosScraper.cnj_url :: map snd EnunciadosScraper.fonaje_urls) ->
     BaseScraper.search_recent_decisions EnunciadosScraper.scraper days_back = Ok [] /\
     BaseScraper.get_recent_jurisprudence EnunciadosScraper.scraper days_back = [] /\
     Spec.invoke days_back ("ENUNCIADOS", JurisprudenciaService.enunciados_scraper)
     = Ok []).
Proof.
  split.
  - intros Hpage. unfold Spec.invoke, BaseScraper.get_recent_jurisprudence. simpl.
    unfold BaseScraper.get_recent_jurisprudence. simpl.
    by rewrite stj_search_unreachable.
  - intros Hpages. unfold Spec.invoke, BaseScraper.get_recent_jurisprudence. simpl.
    unfold EnunciadosScraper.search_recent_decisions.
    by rewrite enunciados_unreachable.
Qed.

(** C7. [get_recent_jurisprudence] returns, in the order of the
    candidates of [search_recent_decisions(days_back)], the results of
    [extract_decision_details] on the [url] of each that are not [None]:
    for the STJ scraper and for the enunciados scraper, in every world,
    and for any scraper whose two methods return without raising, the
    second one a dictionary with its fields or [None]. *)
Theorem get_recent_jurisprudence_is_search_then_extract (days_back : Z) :
  BaseScraper.get_recent_jurisprudence STJScraper.scraper days_back
  = omap (fun c => STJScraper.extract_decision_details (dict_get c "url"))
      (STJScraper.search_recent_decisions days_back)
  /\
  BaseScraper.get_recent_jurisprudence EnunciadosScraper.scraper days_back
  = omap (fun c => EnunciadosScraper.extract_decision_details (dict_get c "url"))
      (EnunciadosScraper.search_recent_decisions days_back)
  /\
  (forall (self : BaseScraper.t) (candidates : list (gmap string pyval))
          (f : pyval -> option (gmap string pyval)),
     BaseScraper.search_recent_decisions self days_back = Ok (PyDict <$> candidates) ->
     (forall url, BaseScraper.extract_decision_details self url = Ok (f url)) ->
     (forall url, f url <> Some ∅) ->
     BaseScraper.get_recent_jurisprudence self days_back
     = omap (fun c => f (dict_get c "url")) candidates).
Proof.
  split; [|split]; unfold BaseScraper.get_recent_jurisprudence.
  - simpl bind.
    rewrite (extract_all_omap _ STJScraper.extract_decision_details);
      [done | done | apply stj_details_not_empty].
  - simpl bind.
    rewrite (extract_all_omap _ EnunciadosScraper.extract_decision_details);
      done.
  - intros self candidates f -> Hextract Hfull. simpl bind.
    by rewrite (extract_all_omap _ f).
Qed.

(** C8. The enunciados scraper's [search_recent_decisions] does not look
    at [days_back]: it returns [get_all_enunciados()], the same for any
    two arguments; its [extract_decision_details] returns [None] for
    every input. *)
Theorem enunciados_search_ignores_days_back :
  (forall d1 d2 : Z,
     EnunciadosScraper.search_recent_decisions d1
     = EnunciadosScraper.search_recent_decisions d2) /\
  (forall d : Z,
     EnunciadosScraper.search_recent_decisions d = EnunciadosScraper.get_all_enunciados) /\
  (forall decision_url : pyval,
     EnunciadosScraper.extract_decision_details decision_url = None).
Proof. by repeat split. Qed.
End ScraperFacts.

Lemma unreachable_source_gives_no_candidates_witness :
  BaseScraper.search_recent_decisions (@STJScraper.scraper Sample.offline) 7 = Ok [] /\
  BaseScraper.get_recent_jurisprudence (@STJScraper.scraper Sample.offline) 7 = [] /\
  Spec.invoke 7 ("ENUNCIADOS", @JurisprudenciaService.enunciados_scraper Sample.offline)
  = Ok [].
Proof.
  destruct (@unreachable_source_gives_no_candidates Sample.offline 7) as [Hstj Hen].
  destruct Hstj as (Hsearch & Hcollect & _); [reflexivity|].
  destruct Hen as (_ & _ & Hall); [repeat constructor|].
  by repeat split.
Defined.

Lemma get_recent_jurisprudence_is_search_then_extract_witness :
  map (fun d => dict_get d "ementa")
    (BaseScraper.get_recent_jurisprudence (@STJScraper.scraper Sample.world) 7)
  = [VStr "Recurso especial"].
Proof.
  destruct (@get_recent_jurisprudence_is_search_then_extract Sample.world 7)
    as (_ & _ & Hany).
  rewrite (Hany (@STJScraper.scraper Sample.world)
             (@STJScraper.search_recent_decisions Sample.world 7)
             (@STJScraper.extract_decision_details Sample.world)
             eq_refl (fun _ => eq_refl) (@stj_details_not_empty Sample.world)).
  vm_compute. reflexivity.
Defined.

(** * Properties of the save step *)

Section SaveFacts.
Import JurisprudenciaService Spec.

Lemma find_elem_of {A : Type} (f : A -> bool) (l : list A) (x : A) :
  x ∈ l -> f x = true -> exists y, List.find f l = Some y.
Proof.
  intros Hx Hf. destruct (List.find f l) as [y|] eqn:Hfind; [by exists y|].
  apply list_elem_of_In in Hx.
  pose proof (List.find_none f l Hfind x Hx). congruence.
Qed.

Lemma find_Some_elem_of {A : Type} (f : A -> bool) (l : list A) (y : A) :
  List.find f l = Some y -> y ∈ l /\ f y = true.
Proof.
  intros Hfind. apply List.find_some in Hfind as [Hin Hf].
  split; [by apply list_elem_of_In | done].
Qed.

Lemma same_processo_row (d : gmap string pyval) :
  Session.same_processo (dict_get d "tribunal") (dict_get d "numero_processo")
    (row_of_decision d) = true.
Proof. unfold Session.same_processo. simpl. by rewrite !bool_decide_eq_true_2. Qed.

Lemma same_enunciado_row (d : gmap string pyval) :
  Session.same_enunciado (dict_get d "orgao") (dict_get d "tipo") (dict_get d "numero")
    (row_of_enunciado d) = true.
Proof. unfold Session.same_enunciado. simpl. by rewrite !bool_decide_eq_true_2. Qed.

(** One turn of each loop, by the kind of the item. *)
Lemma stage_jurisprudencia_turn (item : pyobj) (db : Database) (n : Z) :
  try_except (stage_jurisprudencia item (db, n)) (fun _ => (db, n))
  = match item with
    | PyOther _ => (db, n)
    | PyDict d =>
        match Session.first_jurisprudencia (dict_get d "tribunal")
                (dict_get d "numero_processo") db with
        | Some _ => (db, n)
        | None => (Session.add_jurisprudencia (row_of_decision d) db, n + 1)
        end
    end.
Proof.
  destruct item as [d|type_name]; [|done]. unfold stage_jurisprudencia. simpl.
  by destruct (Session.first_jurisprudencia _ _ db).
Qed.

Lemma stage_enunciado_turn (item : pyobj) (db : Database) (n : Z) :
  try_except (stage_enunciado item (db, n)) (fun _ => (db, n))
  = match item with
    | PyOther _ => (db, n)
    | PyDict d =>
        match Session.first_enunciado (dict_get d "orgao") (dict_get d "tipo")
                (dict_get d "numero") db with
        | Some _ => (db, n)
        | None => (Session.add_enunciado (row_of_enunciado d) db, n + 1)
        end
    end.
Proof.
  destruct item as [d|type_name]; [|done]. unfold stage_enunciado. simpl.
  by destruct (Session.first_enunciado _ _ _ db).
Qed.

Lemma stage_all_jurisprudencia_cons (item : pyobj) (rest : list pyobj)
    (db : Database) (n : Z) :
  stage_all_jurisprudencia (item :: rest) (db, n)
  = stage_all_jurisprudencia rest
      (try_except (stage_jurisprudencia item (db, n)) (fun _ => (db, n))).
Proof. done. Qed.

Lemma stage_all_enunciados_cons (item : pyobj) (rest : list pyobj)
    (db : Database) (n : Z) :
  stage_all_enunciados (item :: rest) (db, n)
  = stage_all_enunciados rest
      (try_except (stage_enunciado item (db, n)) (fun _ => (db, n))).
Proof. done. Qed.

(** What the loop of [_save_jurisprudencia] leaves: the committed rows
    untouched, some rows [staged] behind those already waiting, the count
    raised by their number, and for every dictionary of the batch a row
    with its key, committed or waiting. *)
Lemma stage_all_jurisprudencia_spec (items : list pyobj) (db : Database) (n : Z) :
  exists staged,
    stage_all_jurisprudencia items (db, n)
    = ({| jurisprudencia := jurisprudencia db;
          enunciados := enunciados db;
          new_jurisprudencia := new_jurisprudencia db ++ staged;
          new_enunciados := new_enunciados db |}, n + Z.of_nat (length staged)) /\
    Forall (known_jurisprudencia
              {| jurisprudencia := jurisprudencia db ++ new_jurisprudencia db ++ staged;
                 enunciados := enunciados db;
                 new_jurisprudencia := []; new_enunciados := [] |}) items.
Proof.
  revert db n. induction items as [|item rest IH]; intros db n.
  - exists []. split; [|constructor]. simpl. rewrite app_nil_r, Z.add_0_r.
    by destruct db.
  - rewrite stage_all_jurisprudencia_cons, stage_jurisprudencia_turn.
    destruct item as [d|type_name].
    + destruct (Session.first_jurisprudencia _ _ db) as [row|] eqn:Hfirst.
      * destruct (IH db n) as (staged & -> & Hknown). exists staged.
        split; [done|]. constructor; [|done].
        apply find_Some_elem_of in Hfirst as [Hin Hsame].
        exists row. split; [|done]. simpl. rewrite app_assoc.
        apply elem_of_app. by left.
      * destruct (IH (Session.add_jurisprudencia (row_of_decision d) db) (n + 1))
          as (staged & -> & Hknown).
        exists (row_of_decision d :: staged). simpl in *.
        rewrite <- !app_assoc in *. simpl in *.
        split; [f_equal; lia|]. constructor; [|done].
        exists (row_of_decision d). split; [set_solver | apply same_processo_row].
    + destruct (IH db n) as (staged & -> & Hknown). exists staged.
      split; [done|]. by constructor.
Qed.

Lemma stage_all_enunciados_spec (items : list pyobj) (db : Database) (n : Z) :
  exists staged,
    stage_all_enunciados items (db, n)
    = ({| jurisprudencia := jurisprudencia db;
          enunciados := enunciados db;
          new_jurisprudencia := new_jurisprudencia db;
          new_enunciados := new_enunciados db ++ staged |}, n + Z.of_nat (length staged)) /\
    Forall (known_enunciado
              {| jurisprudencia := jurisprudencia db;
                 enunciados := enunciados db ++ new_enunciados db ++ staged;
                 new_jurisprudencia := []; new_enunciados := [] |}) items.
Proof.
  revert db n. induction items as [|item rest IH]; intros db n.
  - exists []. split; [|constructor]. simpl. rewrite app_nil_r, Z.add_0_r.
    by destruct db.
  - rewrite stage_all_enunciados_cons, stage_enunciado_turn.
    destruct item as [d|type_name].
    + destruct (Session.first_enunciado _ _ _ db) as [row|] eqn:Hfirst.
      * destruct (IH db n) as (staged & -> & Hknown). exists staged.
        split; [done|]. constructor; [|done].
        apply find_Some_elem_of in Hfirst as [Hin Hsame].
        exists row. split; [|done]. simpl. rewrite app_assoc.
        apply elem_of_app. by left.
      * destruct (IH (Session.add_enunciado (row_of_enunciado d) db) (n + 1))
          as (staged & -> & Hknown).
        exists (row_of_enunciado d :: staged). simpl in *.
        rewrite <- !app_assoc in *. simpl in *.
        split; [f_equal; lia|]. constructor; [|done].
        exists (row_of_enunciado d). split; [set_solver | apply same_enunciado_row].
    + destruct (IH db n) as (staged & -> & Hknown). exists staged.
      split; [done|]. by constructor.
Qed.
Lemma known_jurisprudencia_mono (db db' : Database) (item : pyobj) :
  jurisprudencia db ⊆ jurisprudencia db' ->
  known_jurisprudencia db item -> known_jurisprudencia db' item.
Proof.
  intros Hsub. destruct item as [d|]; [|done].
  intros (row & Hin & Hsame). exists row. split; [by apply Hsub | done].
Qed.

Lemma known_enunciado_mono (db db' : Database) (item : pyobj) :
  enunciados db ⊆ enunciados db' ->
  known_enunciado db item -> known_enunciado db' item.
Proof.
  intros Hsub. destruct item as [d|]; [|done].
  intros (row & Hin & Hsame). exists row. split; [by apply Hsub | done].
Qed.

(** A batch of known records stages nothing. *)
Lemma stage_all_jurisprudencia_known (items : list pyobj) (db : Database) (n : Z) :
  Forall (known_jurisprudencia db) items ->
  stage_all_jurisprudencia items (db, n) = (db, n).
Proof.
  induction 1 as [|item rest Hitem Hrest IH]; [done|].
  rewrite stage_all_jurisprudencia_cons, stage_jurisprudencia_turn.
  destruct item as [d|type_name]; [|done].
  destruct Hitem as (row & Hin & Hsame).
  destruct (find_elem_of _ (jurisprudencia db ++ new_jurisprudencia db) row
              (proj2 (elem_of_app _ _ _) (or_introl Hin)) Hsame) as [y Hy].
  unfold Session.first_jurisprudencia. by rewrite Hy.
Qed.

Lemma stage_all_enunciados_known (items : list pyobj) (db : Database) (n : Z) :
  Forall (known_enunciado db) items ->
  stage_all_enunciados items (db, n) = (db, n).
Proof.
  induction 1 as [|item rest Hitem Hrest IH]; [done|].
  rewrite stage_all_enunciados_cons, stage_enunciado_turn.
  destruct item as [d|type_name]; [|done].
  destruct Hitem as (row & Hin & Hsame).
  destruct (find_elem_of _ (enunciados db ++ new_enunciados db) row
              (proj2 (elem_of_app _ _ _) (or_introl Hin)) Hsame) as [y Hy].
  unfold Session.first_enunciado. by rewrite Hy.
Qed.



(** The save steps: the loop, then the commit or the rollback. *)
Lemma save_jurisprudencia_unfold (accepted : bool) (items : list pyobj) (db : Database) :
  _save_jurisprudencia accepted items db
  = let st := stage_all_jurisprudencia items (db, 0) in
    if accepted then
      (snd st, {| jurisprudencia := jurisprudencia (fst st) ++ new_jurisprudencia (fst st);
                  enunciados := enunciados (fst st) ++ new_enunciados (fst st);
                  new_jurisprudencia := []; new_enunciados := [] |})
    else (0, Session.rollback (fst st)).
Proof.
  unfold _save_jurisprudencia, stage_all_jurisprudencia.
  destruct (fold_left _ items (db, 0)) as [db' n]. by destruct accepted.
Qed.

Lemma save_enunciados_unfold (accepted : bool) (items : list pyobj) (db : Database) :
  _save_enunciados accepted items db
  = let st := stage_all_enunciados items (db, 0) in
    if accepted then
      (snd st, {| jurisprudencia := jurisprudencia (fst st) ++ new_jurisprudencia (fst st);
                  enunciados := enunciados (fst st) ++ new_enunciados (fst st);
                  new_jurisprudencia := []; new_enunciados := [] |})
    else (0, Session.rollback (fst st)).
Proof.
  unfold _save_enunciados, stage_all_enunciados.
  destruct (fold_left _ items (db, 0)) as [db' n]. by destruct accepted.
Qed.

Lemma save_jurisprudencia_refused (items : list pyobj) (db : Database) :
  _save_jurisprudencia false items db = (0, Session.rollback db).
Proof.
  rewrite save_jurisprudencia_unfold.
  by destruct (stage_all_jurisprudencia_spec items db 0) as (staged & -> & _).
Qed.

Lemma save_enunciados_refused (items : list pyobj) (db : Database) :
  _save_enunciados false items db = (0, Session.rollback db).
Proof.
  rewrite save_enunciados_unfold.
  by destruct (stage_all_enunciados_spec items db 0) as (staged & -> & _).
Qed.

Lemma save_jurisprudencia_accepted (items : list pyobj) (db : Database) :
  exists staged,
    _save_jurisprudencia true items db
    = (Z.of_nat (length staged),
       {| jurisprudencia := jurisprudencia db ++ new_jurisprudencia db ++ staged;
          enunciados := enunciados db ++ new_enunciados db;
          new_jurisprudencia := []; new_enunciados := [] |}) /\
    Forall (known_jurisprudencia
              (snd (_save_jurisprudencia true items db))) items.
Proof.
  rewrite save_jurisprudencia_unfold.
  destruct (stage_all_jurisprudencia_spec items db 0) as (staged & -> & Hknown).
  exists staged. simpl. split; [done|].
  eapply Forall_impl; [exact Hknown|]. intros item.
  by apply known_jurisprudencia_mono.
Qed.

Lemma save_enunciados_accepted (items : list pyobj) (db : Database) :
  exists staged,
    _save_enunciados true items db
    = (Z.of_nat (length staged),
       {| jurisprudencia := jurisprudencia db ++ new_jurisprudencia db;
          enunciados := enunciados db ++ new_enunciados db ++ staged;
          new_jurisprudencia := []; new_enunciados := [] |}) /\
    Forall (known_enunciado (snd (_save_enunciados true items db))) items.
Proof.
  rewrite save_enunciados_unfold.
  destruct (stage_all_enunciados_spec items db 0) as (staged & -> & Hknown).
  exists staged. simpl. split; [done|].
  eapply Forall_impl; [exact Hknown|]. intros item.
  by apply known_enunciado_mono.
Qed.

(** On a clean session, a batch of known records is a no-op, whatever the
    commit does. *)
Lemma save_jurisprudencia_known (accepted : bool) (items : list pyobj) (db : Database) :
  clean db -> Forall (known_jurisprudencia db) items ->
  _save_jurisprudencia accepted items db = (0, db).
Proof.
  intros [Hj He] Hknown.
  rewrite save_jurisprudencia_unfold, stage_all_jurisprudencia_known by done.
  destruct db as [J E NJ NE]. simpl in *. subst.
  destruct accepted; unfold Session.rollback; simpl; by rewrite ?app_nil_r.
Qed.

Lemma save_enunciados_known (accepted : bool) (items : list pyobj) (db : Database) :
  clean db -> Forall (known_enunciado db) items ->
  _save_enunciados accepted items db = (0, db).
Proof.
  intros [Hj He] Hknown.
  rewrite save_enunciados_unfold, stage_all_enunciados_known by done.
  destruct db as [J E NJ NE]. simpl in *. subst.
  destruct accepted; unfold Session.rollback; simpl; by rewrite ?app_nil_r.
Qed.
End SaveFacts.

(** * Properties of the collection run *)

Section CollectFacts.
Import JurisprudenciaService Spec.
Variable days_back : Z.

(** One turn of the loop over the registry, by the outcome of the call. *)
Lemma collect_from_turn (accepted : string -> bool) (results : Results)
    (db : Database) (entry : string * Scraper) :
  collect_from days_back accepted (results, db) entry
  = match invoke days_back entry with
    | Ok items =>
        ({| success := success results
              ++ [success_message (fst entry)
                    (fst (save_batch accepted (fst entry) items db))];
            errors := errors results;
            total_collected := total_collected results
              + fst (save_batch accepted (fst entry) items db) |},
         snd (save_batch accepted (fst entry) items db))
    | Raise e =>
        ({| success := success results;
            errors := errors results ++ [error_message (fst entry) e];
            total_collected := total_collected results |}, db)
    end.
Proof.
  destruct entry as [tribunal_name scraper].
  unfold collect_from, invoke, save_batch, success_message, error_message.
  simpl fst. simpl snd.
  destruct (String.eqb tribunal_name "ENUNCIADOS").
  - destruct (get_all_enunciados scraper) as [items|e]; [|done]. simpl.
    by destruct (_save_enunciados _ items db).
  - destruct (get_recent_jurisprudence scraper days_back) as [items|e]; [|done].
    simpl. by destruct (_save_jurisprudencia _ items db).
Qed.

Lemma saved_counts_cons (accepted : string -> bool) (entry : string * Scraper)
    (rest : list (string * Scraper)) (db : Database) :
  saved_counts days_back accepted (entry :: rest) db
  = match invoke days_back entry with
    | Ok items =>
        fst (save_batch accepted (fst entry) items db)
        :: saved_counts days_back accepted rest
             (snd (save_batch accepted (fst entry) items db))
    | Raise _ => saved_counts days_back accepted rest db
    end.
Proof.
  simpl. destruct (invoke days_back entry) as [items|e]; [|done].
  by destruct (save_batch accepted (fst entry) items db).
Qed.

Lemma returned_names_cons (entry : string * Scraper) (rest : list (string * Scraper)) :
  returned_names days_back (entry :: rest)
  = match invoke days_back entry with
    | Ok _ => fst entry :: returned_names days_back rest
    | Raise _ => returned_names days_back rest
    end.
Proof. unfold returned_names. simpl. by destruct (invoke days_back entry). Qed.

Lemma error_entries_cons (entry : string * Scraper) (rest : list (string * Scraper)) :
  error_entries days_back (entry :: rest)
  = match invoke days_back entry with
    | Ok _ => error_entries days_back rest
    | Raise e => error_message (fst entry) e :: error_entries days_back rest
    end.
Proof. unfold error_entries. simpl. by destruct (invoke days_back entry). Qed.

(** The whole loop: the entries it adds to the results it starts from. *)
Lemma collect_fold (accepted : string -> bool) (registry : list (string * Scraper))
    (results : Results) (db : Database) :
  fold_left (collect_from days_back accepted) registry (results, db)
  = ({| success := success results
          ++ zip_with success_message (returned_names days_back registry)
               (saved_counts days_back accepted registry db);
        errors := errors results ++ error_entries days_back registry;
        total_collected := total_collected results
          + sum (saved_counts days_back accepted registry db) |},
     final_db days_back accepted registry db).
Proof.
  revert results db. induction registry as [|entry rest IH]; intros results db.
  - simpl. rewrite !app_nil_r, Z.add_0_r. by destruct results.
  - cbn [fold_left final_db].
    rewrite collect_from_turn, saved_counts_cons, returned_names_cons,
      error_entries_cons.
    destruct (invoke days_back entry) as [items|e]; rewrite IH; cbn [success errors
      total_collected zip_with]; rewrite <- app_assoc; [|done].
    f_equal. f_equal. unfold sum. simpl. lia.
Qed.

Lemma collect_all_spec (accepted : string -> bool) (registry : list (string * Scraper))
    (db : Database) :
  collect_all_recent_jurisprudence registry days_back accepted db
  = ({| success := zip_with success_message (returned_names days_back registry)
                     (saved_counts days_back accepted registry db);
        errors := error_entries days_back registry;
        total_collected := sum (saved_counts days_back accepted registry db) |},
     final_db days_back accepted registry db).
Proof. unfold collect_all_recent_jurisprudence. by rewrite collect_fold. Qed.

Lemma final_db_app (accepted : string -> bool) (l1 l2 : list (string * Scraper))
    (db : Database) :
  final_db days_back accepted (l1 ++ l2) db
  = final_db days_back accepted l2 (final_db days_back accepted l1 db).
Proof.
  revert db. induction l1 as [|entry rest IH]; intros db; [done|]. simpl.
  by destruct (invoke days_back entry).
Qed.

Lemma saved_counts_app (accepted : string -> bool) (l1 l2 : list (string * Scraper))
    (db : Database) :
  saved_counts days_back accepted (l1 ++ l2) db
  = saved_counts days_back accepted l1 db
    ++ saved_counts days_back accepted l2 (final_db days_back accepted l1 db).
Proof.
  revert db. induction l1 as [|entry rest IH]; intros db; [done|].
  rewrite <- app_comm_cons, !saved_counts_cons. simpl final_db.
  destruct (invoke days_back entry); [|apply IH]. by rewrite IH.
Qed.

Lemma saved_counts_length (accepted : string -> bool)
    (registry : list (string * Scraper)) (db : Database) :
  length (saved_counts days_back accepted registry db)
  = length (returned_names days_back registry).
Proof.
  revert db. induction registry as [|entry rest IH]; intros db; [done|].
  rewrite saved_counts_cons, returned_names_cons.
  destruct (invoke days_back entry); [|apply IH]. simpl. by rewrite IH.
Qed.

Lemma all_return (registry : list (string * Scraper)) :
  Forall (returns days_back) registry ->
  returned_names days_back registry = map fst registry /\
  error_entries days_back registry = [].
Proof.
  induction 1 as [|entry rest [items Hitems] Hrest [IHn IHe]]; [done|].
  rewrite returned_names_cons, error_entries_cons, Hitems.
  split; [by rewrite IHn | done].
Qed.

(** A source whose call raises adds its error entry and nothing else. *)
Lemma skip_failing (accepted : string -> bool) (before after : list (string * Scraper))
    (entry : string * Scraper) (e : string) (db : Database) :
  invoke days_back entry = Raise e ->
  saved_counts days_back accepted (before ++ entry :: after) db
  = saved_counts days_back accepted (before ++ after) db /\
  final_db days_back accepted (before ++ entry :: after) db
  = final_db days_back accepted (before ++ after) db /\
  returned_names days_back (before ++ entry :: after)
  = returned_names days_back (before ++ after) /\
  error_entries days_back (before ++ entry :: after)
  = error_entries days_back before ++ error_message (fst entry) e
      :: error_entries days_back after.
Proof.
  intros Hraise. rewrite !saved_counts_app, !final_db_app, saved_counts_cons.
  cbn [final_db]. rewrite Hraise.
  unfold returned_names, error_entries. rewrite !omap_app.
  fold (returned_names days_back (entry :: after)).
  fold (error_entries days_back (entry :: after)).
  by rewrite returned_names_cons, error_entries_cons, Hraise.
Qed.
Lemma save_batch_clean (accepted : string -> bool) (tribunal_name : string)
    (items : list pyobj) (db : Database) :
  clean (snd (save_batch accepted tribunal_name items db)).
Proof.
  unfold save_batch.
  destruct (String.eqb tribunal_name "ENUNCIADOS");
    [rewrite save_enunciados_unfold | rewrite save_jurisprudencia_unfold];
    by destruct (accepted tribunal_name).
Qed.

Lemma save_batch_grows (accepted : string -> bool) (tribunal_name : string)
    (items : list pyobj) (db : Database) :
  jurisprudencia db ⊆ jurisprudencia (snd (save_batch accepted tribunal_name items db)) /\
  enunciados db ⊆ enunciados (snd (save_batch accepted tribunal_name items db)).
Proof.
  unfold save_batch.
  destruct (String.eqb tribunal_name "ENUNCIADOS"), (accepted tribunal_name).
  - destruct (save_enunciados_accepted items db) as (staged & -> & _).
    simpl. split; intros row Hrow; apply elem_of_app; by left.
  - by rewrite save_enunciados_refused.
  - destruct (save_jurisprudencia_accepted items db) as (staged & -> & _).
    simpl. split; intros row Hrow; apply elem_of_app; by left.
  - by rewrite save_jurisprudencia_refused.
Qed.

Lemma save_batch_refused (accepted : string -> bool) (tribunal_name : string)
    (items : list pyobj) (db : Database) :
  accepted tribunal_name = false ->
  save_batch accepted tribunal_name items db = (0, Session.rollback db).
Proof.
  intros Hrefused. unfold save_batch. rewrite Hrefused.
  destruct (String.eqb tribunal_name "ENUNCIADOS");
    [apply save_enunciados_refused | apply save_jurisprudencia_refused].
Qed.

Lemma known_mono (tribunal_name : string) (db db' : Database) (item : pyobj) :
  jurisprudencia db ⊆ jurisprudencia db' -> enunciados db ⊆ enunciados db' ->
  known tribunal_name db item -> known tribunal_name db' item.
Proof.
  unfold known. intros Hj He.
  destruct (String.eqb tribunal_name "ENUNCIADOS");
    [by apply known_enunciado_mono | by apply known_jurisprudencia_mono].
Qed.

(** After an accepted commit every record of the batch is known. *)
Lemma save_batch_known (accepted : string -> bool) (tribunal_name : string)
    (items : list pyobj) (db : Database) :
  accepted tribunal_name = true ->
  Forall (known tribunal_name (snd (save_batch accepted tribunal_name items db))) items.
Proof.
  unfold known, save_batch. intros ->.
  destruct (String.eqb tribunal_name "ENUNCIADOS").
  - by destruct (save_enunciados_accepted items db) as (staged & _ & Hknown).
  - by destruct (save_jurisprudencia_accepted items db) as (staged & _ & Hknown).
Qed.

Lemma rollback_clean (db : Database) : clean db -> Session.rollback db = db.
Proof. intros [Hj He]. destruct db. simpl in *. by subst. Qed.

Lemma save_batch_of_known (accepted : string -> bool) (tribunal_name : string)
    (items : list pyobj) (db : Database) :
  clean db -> Forall (known tribunal_name db) items ->
  save_batch accepted tribunal_name items db = (0, db).
Proof.
  unfold known, save_batch. intros Hclean.
  destruct (String.eqb tribunal_name "ENUNCIADOS"); intros Hknown;
    [by apply save_enunciados_known | by apply save_jurisprudencia_known].
Qed.

Lemma final_db_grows (accepted : string -> bool) (registry : list (string * Scraper))
    (db : Database) :
  jurisprudencia db ⊆ jurisprudencia (final_db days_back accepted registry db) /\
  enunciados db ⊆ enunciados (final_db days_back accepted registry db).
Proof.
  revert db. induction registry as [|entry rest IH]; intros db; [done|].
  simpl. destruct (invoke days_back entry) as [items|e]; [|apply IH].
  destruct (save_batch_grows accepted (fst entry) items db) as [Hj He].
  destruct (IH (snd (save_batch accepted (fst entry) items db))) as [Hj' He'].
  split; etrans; done.
Qed.

Lemma final_db_clean (accepted : string -> bool) (registry : list (string * Scraper))
    (db : Database) :
  clean db -> clean (final_db days_back accepted registry db).
Proof.
  revert db. induction registry as [|entry rest IH]; intros db Hclean; [done|].
  simpl. destruct (invoke days_back entry) as [items|e]; [|by apply IH].
  apply IH, save_batch_clean.
Qed.

(** After a run, as soon as one source returned, the session is clean,
    and every record returned by a source whose commit was accepted is
    known. *)
Lemma first_run_known (accepted : string -> bool) (registry : list (string * Scraper))
    (db : Database) (entry : string * Scraper) (items : list pyobj) :
  entry ∈ registry -> invoke days_back entry = Ok items ->
  clean (final_db days_back accepted registry db) /\
  (accepted (fst entry) = true ->
   Forall (known (fst entry) (final_db days_back accepted registry db)) items).
Proof.
  revert db. induction registry as [|first rest IH]; intros db Hin Hitems.
  - by apply elem_of_nil in Hin.
  - apply elem_of_cons in Hin as [->|Hin].
    + simpl. rewrite Hitems. split; [apply final_db_clean, save_batch_clean|].
      intros Haccepted.
      eapply Forall_impl; [by apply save_batch_known|]. intros item.
      apply known_mono; apply final_db_grows.
    + simpl. destruct (invoke days_back first); by apply IH.
Qed.

(** A run in which every commit that is accepted ends a batch of known
    records saves nothing and leaves the store as it is. *)
Lemma run_of_known (accepted : string -> bool) (registry : list (string * Scraper))
    (db : Database) :
  (forall entry items,
     entry ∈ registry -> invoke days_back entry = Ok items ->
     clean db /\ (accepted (fst entry) = true -> Forall (known (fst entry) db) items)) ->
  saved_counts days_back accepted registry db
  = map (fun _ => 0) (returned_names days_back registry) /\
  final_db days_back accepted registry db = db.
Proof.
  induction registry as [|entry rest IH]; intros Hknown; [done|].
  rewrite saved_counts_cons, returned_names_cons. cbn [final_db].
  destruct (invoke days_back entry) as [items|e] eqn:Hitems.
  - destruct (Hknown entry items) as [Hclean Hitems_known]; [by left | done |].
    assert (Hsaved : save_batch accepted (fst entry) items db = (0, db)).
    { destruct (accepted (fst entry)) eqn:Haccepted.
      - apply save_batch_of_known; [done | by apply Hitems_known].
      - rewrite save_batch_refused by done. by rewrite rollback_clean. }
    rewrite Hsaved. simpl.
    destruct IH as [-> ->]; [|done].
    intros entry' items' Hin. apply Hknown. by right.
  - apply IH. intros entry' items' Hin. apply Hknown. by right.
Qed.

Lemma sum_zeros {A : Type} (l : list A) : sum (map (fun _ => 0) l) = 0.
Proof. induction l as [|x l IH]; [done|]. unfold sum in *. simpl. lia. Qed.

(** C1. A record whose key has a row in the store is skipped by the save
    step, not counted and not written: on a clean session a batch of such
    records returns 0 and leaves the store as it is, for both tables.
    Hence a second run over the same sources with the same answers
    reports [total_collected = 0] and returns the store unchanged, rows
    and count, provided the storage accepts in it no commit that it
    refused in the first run; so it is whenever the commits of the first
    run were accepted. *)
Theorem collection_is_idempotent :
  (forall (accepted : bool) (items : list pyobj) (db : Database),
     clean db -> Forall (known_jurisprudencia db) items ->
     _save_jurisprudencia accepted items db = (0, db)) /\
  (forall (accepted : bool) (items : list pyobj) (db : Database),
     clean db -> Forall (known_enunciado db) items ->
     _save_enunciados accepted items db = (0, db)) /\
  (forall (registry : list (string * Scraper)) (accepted1 accepted2 : string -> bool)
          (db : Database),
     (forall tribunal_name,
        accepted2 tribunal_name = true -> accepted1 tribunal_name = true) ->
     let first :=
       collect_all_recent_jurisprudence registry days_back accepted1 db in
     let second :=
       collect_all_recent_jurisprudence registry days_back accepted2 (snd first) in
     total_collected (fst second) = 0 /\ snd second = snd first /\
     success (fst second)
     = map (fun tribunal_name => success_message tribunal_name 0)
         (returned_names days_back registry)) /\
  (forall (registry : list (string * Scraper)) (accepted : string -> bool)
          (db : Database),
     let first :=
       collect_all_recent_jurisprudence registry days_back (fun _ => true) db in
     let second :=
       collect_all_recent_jurisprudence registry days_back accepted (snd first) in
     total_collected (fst second) = 0 /\ snd second = snd first).
Proof.
  assert (Htwice : forall registry accepted1 accepted2 db,
    (forall tribunal_name,
       accepted2 tribunal_name = true -> accepted1 tribunal_name = true) ->
    let first := collect_all_recent_jurisprudence registry days_back accepted1 db in
    let second :=
      collect_all_recent_jurisprudence registry days_back accepted2 (snd first) in
    total_collected (fst second) = 0 /\ snd second = snd first /\
    success (fst second)
    = map (fun tribunal_name => success_message tribunal_name 0)
        (returned_names days_back registry)).
  { intros registry accepted1 accepted2 db Hsame first second. subst first second.
    rewrite !collect_all_spec. cbn [fst snd total_collected success].
    destruct (run_of_known accepted2 registry
                (final_db days_back accepted1 registry db)) as [-> ->].
    { intros entry items Hin Hitems.
      destruct (first_run_known accepted1 registry db entry items Hin Hitems)
        as [Hclean Hknown].
      split; [done|]. intros Haccepted. by apply Hknown, Hsame. }
    split; [apply sum_zeros|]. split; [done|].
    induction (returned_names days_back registry) as [|n l IH]; [done|].
    simpl. by rewrite IH. }
  split; [apply save_jurisprudencia_known|].
  split; [apply save_enunciados_known|].
  split; [exact Htwice|].
  intros registry accepted db first second.
  destruct (Htwice registry (fun _ => true) accepted db) as (Htotal & Hstore & _);
    done.
Qed.

(** C2. In a registry where the call on one source raises and the calls
    on all the others return, the run reports one error entry, that of
    the failing source with its name, and one success entry for each of
    the others, in order, with its saved count; [total_collected] is the
    sum of those counts; entries, total and store are those of the run
    over the registry without the failing source. *)
Theorem failing_source_is_isolated (before after : list (string * Scraper))
    (tribunal_name : string) (scraper : Scraper) (e : string)
    (accepted : string -> bool) (db : Database) :
  invoke days_back (tribunal_name, scraper) = Raise e ->
  Forall (returns days_back) (before ++ after) ->
  let run :=
    collect_all_recent_jurisprudence (before ++ (tribunal_name, scraper) :: after)
      days_back accepted db in
  let others :=
    collect_all_recent_jurisprudence (before ++ after) days_back accepted db in
  let counts := saved_counts days_back accepted (before ++ after) db in
  errors (fst run) = [error_message tribunal_name e] /\
  success (fst run) = zip_with success_message (map fst (before ++ after)) counts /\
  length (success (fst run)) = length (before ++ after) /\
  total_collected (fst run) = sum counts /\
  success (fst run) = success (fst others) /\
  total_collected (fst run) = total_collected (fst others) /\
  errors (fst others) = [] /\
  snd run = snd others.
Proof.
  intros Hraise Hothers run others counts. subst run others counts.
  rewrite !collect_all_spec. cbn [fst snd success errors total_collected].
  destruct (skip_failing accepted before after _ e db Hraise)
    as (-> & -> & -> & ->).
  destruct (all_return _ Hothers) as [Hnames Herrors].
  apply Forall_app in Hothers as [Hbefore Hafter].
  destruct (all_return _ Hbefore) as [_ ->].
  destruct (all_return _ Hafter) as [_ ->].
  rewrite Hnames, Herrors.
  repeat split; try done.
  rewrite length_zip_with, saved_counts_length, Hnames, length_map. lia.
Qed.

(** C3. A batch whose commit is refused is rolled back whole: the save
    step returns 0 and the store with nothing added and nothing waiting.
    In a run, the source whose commit is refused gets a success entry
    with count 0 and adds nothing to the total, the store is the one the
    sources before it left, their committed rows included, and the run
    goes on from there with the sources after it. *)
Theorem refused_commit_rolls_back_the_batch :
  (forall (items : list pyobj) (db : Database),
     _save_jurisprudencia false items db = (0, Session.rollback db)) /\
  (forall (items : list pyobj) (db : Database),
     _save_enunciados false items db = (0, Session.rollback db)) /\
  (forall (before after : list (string * Scraper)) (tribunal_name : string)
          (scraper : Scraper) (items : list pyobj) (accepted : string -> bool)
          (db : Database),
     accepted tribunal_name = false ->
     invoke days_back (tribunal_name, scraper) = Ok items ->
     let earlier :=
       collect_all_recent_jurisprudence before days_back accepted db in
     let refused :=
       ({| success := success (fst earlier) ++ [success_message tribunal_name 0];
           errors := errors (fst earlier);
           total_collected := total_collected (fst earlier) |},
        Session.rollback (snd earlier)) in
     collect_all_recent_jurisprudence (before ++ [(tribunal_name, scraper)])
       days_back accepted db = refused /\
     collect_all_recent_jurisprudence (before ++ (tribunal_name, scraper) :: after)
       days_back accepted db
     = fold_left (collect_from days_back accepted) after refused /\
     jurisprudencia (snd refused) = jurisprudencia (snd earlier) /\
     enunciados (snd refused) = enunciados (snd earlier)).
Proof.
  split; [apply save_jurisprudencia_refused|].
  split; [apply save_enunciados_refused|].
  intros before after tribunal_name scraper items accepted db Hrefused Hitems
    earlier refused.
  assert (Hturn : collect_from days_back accepted earlier (tribunal_name, scraper)
                  = refused).
  { subst refused. destruct earlier as [results db1].
    rewrite collect_from_turn, Hitems. cbn [fst snd].
    rewrite save_batch_refused by done. cbn [fst snd]. by rewrite Z.add_0_r. }
  subst earlier. unfold collect_all_recent_jurisprudence in *.
  rewrite !fold_left_app. cbn [fold_left]. by rewrite Hturn.
Qed.

End CollectFacts.

(** * Properties of the scheduler routes *)

Section SchedulerFacts.
Import Spec.


Lemma service_remove_absent (job_id : string) (self : SchedulerService.t)
    (s : BackgroundScheduler) :
  SchedulerService.scheduler self = Some s -> jobs s !! job_id = None ->
  SchedulerService.remove_job job_id self
  = ([("success", JBool false); ("message", JStr "Job não encontrado")], self).
Proof.
  intros Hs Hjob. unfold SchedulerService.remove_job, APScheduler.get_job.
  by rewrite Hs, Hjob.
Qed.

(** Removing the daily job and adding it again with a new trigger. *)
Lemma replace_daily_job (self : SchedulerService.t) (s : BackgroundScheduler)
    (job : Job) :
  SchedulerService.scheduler self = Some s ->
  exists s',
    SchedulerService.scheduler
      (snd (SchedulerService.remove_job "daily_jurisprudence" self)) = Some s' /\
    APScheduler.add_job "daily_jurisprudence" job s'
    = {| jobs := <["daily_jurisprudence" := job]> (jobs s); running := running s |}.
Proof.
  intros Hs. unfold SchedulerService.remove_job, APScheduler.get_job,
    APScheduler.remove_job, APScheduler.add_job.
  rewrite Hs. destruct (jobs s !! "daily_jurisprudence") as [old|] eqn:Hold; simpl.
  - eexists. split; [done|]. simpl. by rewrite insert_delete_eq.
  - exists s. by rewrite Hs.
Qed.

(** C5. A remove request for ["daily_jurisprudence"] is answered with the
    fixed message and status 400 and leaves the scheduler service as it
    was, so the job is still listed; a remove request for another id that
    is not scheduled is answered with a failure body and status 400, not
    with an exception, and changes nothing. *)
Theorem daily_job_is_protected :
  (forall self : SchedulerService.t,
     Routes.remove_job "daily_jurisprudence" self
     = (rejection "Não é possível remover o job principal de coleta diária", self)) /\
  (forall self : SchedulerService.t,
     "daily_jurisprudence"
       ∈ map SchedulerService.info_id (SchedulerService.get_scheduled_jobs self) ->
     "daily_jurisprudence"
       ∈ map SchedulerService.info_id
           (SchedulerService.get_scheduled_jobs
              (snd (Routes.remove_job "daily_jurisprudence" self)))) /\
  (forall (job_id : string) (self : SchedulerService.t) (s : BackgroundScheduler),
     job_id <> "daily_jurisprudence" ->
     SchedulerService.scheduler self = Some s -> jobs s !! job_id = None ->
     Routes.remove_job job_id self = (rejection "Job não encontrado", self)) /\
  (forall (job_id : string) (self : SchedulerService.t),
     job_id <> "daily_jurisprudence" ->
     SchedulerService.scheduler self = None ->
     Routes.remove_job job_id self = (rejection "Scheduler não inicializado", self)).
Proof.
  split; [done|]. split; [done|]. split.
  - intros job_id self s Hid Hs Hjob. unfold Routes.remove_job.
    apply String.eqb_neq in Hid. rewrite Hid.
    by rewrite (service_remove_absent job_id self s).
  - intros job_id self Hid Hs. unfold Routes.remove_job, SchedulerService.remove_job.
    apply String.eqb_neq in Hid. by rewrite Hid, Hs.
Qed.

End SchedulerFacts.

(** * The statements at work on the sample world *)

Lemma collection_is_idempotent_witness :
  JurisprudenciaService._save_jurisprudencia true
    [Sample.decision "STF" "1"; PyOther "NoneType"] Sample.stored
  = (0, Sample.stored) /\
  (let first :=
     JurisprudenciaService.collect_all_recent_jurisprudence
       [Sample.stf; Sample.stj; Sample.tjsp] 7 (fun _ => true) Sample.stored in
   let second :=
     JurisprudenciaService.collect_all_recent_jurisprudence
       [Sample.stf; Sample.stj; Sample.tjsp] 7 Sample.tjsp_refused (snd first) in
   JurisprudenciaService.total_collected (fst second) = 0 /\ snd second = snd first).
Proof.
  destruct (collection_is_idempotent 7) as (Hsave & _ & Hrun & _). split.
  - apply Hsave; [by split|].
    constructor; [|by repeat constructor].
    eexists. split; [apply list_elem_of_here | reflexivity].
  - pose proof (Hrun [Sample.stf; Sample.stj; Sample.tjsp] (fun _ => true)
                  Sample.tjsp_refused Sample.stored (fun _ _ => eq_refl)) as Htwice.
    cbv zeta in Htwice. destruct Htwice as (Htotal & Hstore & _). by split.
Defined.

Lemma failing_source_is_isolated_witness :
  let run :=
    JurisprudenciaService.collect_all_recent_jurisprudence
      [Sample.stf; Sample.stj; Sample.tjsp] 7 (fun _ => true) Sample.empty_db in
  JurisprudenciaService.errors (fst run) = ["Erro na coleta do STJ: boom"] /\
  JurisprudenciaService.success (fst run)
  = ["STF: 2 decisões coletadas"; "TJSP: 1 decisões coletadas"] /\
  JurisprudenciaService.total_collected (fst run) = 3.
Proof.
  pose proof (failing_source_is_isolated 7 [Sample.stf] [Sample.tjsp] "STJ"
                (Sample.failing "boom") "boom" (fun _ => true) Sample.empty_db
                eq_refl) as Hrun.
  cbv zeta in Hrun. destruct Hrun as (Herrors & Hsuccess & _ & Htotal & _).
  - repeat constructor; eexists; reflexivity.
  - cbv zeta. split; [exact Herrors|]. split.
    + etrans; [exact Hsuccess|]. vm_compute. reflexivity.
    + etrans; [exact Htotal|]. vm_compute. reflexivity.
Defined.

Lemma refused_commit_rolls_back_the_batch_witness :
  let run :=
    JurisprudenciaService.collect_all_recent_jurisprudence
      [Sample.stf; Sample.tjsp] 7 Sample.tjsp_refused Sample.empty_db in
  JurisprudenciaService.success (fst run)
  = ["STF: 2 decisões coletadas"; "TJSP: 0 decisões coletadas"] /\
  JurisprudenciaService.total_collected (fst run) = 2 /\
  map numero_processo (jurisprudencia (snd run)) = [VStr "1"; VStr "2"].
Proof.
  destruct (refused_commit_rolls_back_the_batch 7) as (_ & _ & Hrun).
  pose proof (Hrun [Sample.stf] [] "TJSP" (snd Sample.tjsp)
                [Sample.decision "TJSP" "7"; Sample.decision "STF" "1"]
                Sample.tjsp_refused Sample.empty_db eq_refl eq_refl) as Hrefused.
  cbv zeta in Hrefused. destruct Hrefused as (Hlast & _).
  cbv zeta. split; [|split].
  - etrans; [exact (f_equal (fun r => JurisprudenciaService.success (fst r)) Hlast)|].
    vm_compute. reflexivity.
  - etrans;
      [exact (f_equal (fun r => JurisprudenciaService.total_collected (fst r)) Hlast)|].
    vm_compute. reflexivity.
  - etrans;
      [exact (f_equal (fun r => map numero_processo (jurisprudencia (snd r))) Hlast)|].
    vm_compute. reflexivity.
Defined.

Lemma daily_job_is_protected_witness :
  "daily_jurisprudence"
    ∈ map SchedulerService.info_id
        (SchedulerService.get_scheduled_jobs
           (snd (Routes.remove_job "daily_jurisprudence" Sample.started))) /\
  Routes.remove_job "weekly" Sample.started
  = (Spec.rejection "Job não encontrado", Sample.started).
Proof.
  destruct daily_job_is_protected as (_ & Hlisted & Habsent & _). split.
  - apply Hlisted. vm_compute. apply list_elem_of_here.
  - eapply Habsent; [discriminate | reflexivity | reflexivity].
Defined.


(** * The definitions at work *)

Example clean_text_collapses :
  clean_text_str (Some "  Recurso   especial
 provido ") = "Recurso especial provido".
Proof. reflexivity. Qed.

Example clean_text_of_blanks : clean_text_str (Some "   ") = "".
Proof. reflexivity. Qed.

(** U+2003 and U+00A0 are white space for Python. *)
Example clean_text_unicode :
  clean_text (Some [8195; 97; 160; 160; 98; 32]%N) = [97; 32; 98]%N.
Proof. reflexivity. Qed.

Example format_02d_pads : Routes.format_02d 7 = "07" /\ Routes.format_02d 23 = "23".
Proof. by split. Qed.

(** The second decision listed by the sample search page answers 404 and
    is left out. *)
Example stj_sample_search :
  map (fun c => dict_get c "url") (@STJScraper.search_recent_decisions Sample.world 7)
  = [VStr "https://www.stj.jus.br/d/1"; VStr "https://www.stj.jus.br/d/2"] /\
  map (fun d => dict_get d "url_origem")
    (BaseScraper.get_recent_jurisprudence (@STJScraper.scraper Sample.world) 7)
  = [VStr "https://www.stj.jus.br/d/1"].
Proof. split; vm_compute; reflexivity. Qed.

(** A window that reaches before year 1 makes the date arithmetic raise,
    and the search ends empty without a request. *)
Example stj_window_out_of_range :
  @STJScraper.search_recent_decisions Sample.world 1000000 = [].
Proof. reflexivity. Qed.

(** Scenario B: the store holds STF 1; the batch brings it again with two
    new decisions. Two are saved and the stored row keeps its summary. *)
Example scenario_b :
  let saved :=
    JurisprudenciaService._save_jurisprudencia true
      [Sample.decision "STF" "1"; Sample.decision "STF" "2"; Sample.decision "STF" "3"]
      Sample.stored in
  fst saved = 2 /\
  map (fun row => (numero_processo row, ementa row)) (jurisprudencia (snd saved))
  = [(VStr "1", VStr "first"); (VStr "2", VStr "ementa"); (VStr "3", VStr "ementa")].
Proof. split; vm_compute; reflexivity. Qed.

(** An update with an hour in range on a service that was never
    initialised ends in the handler of the route. *)
Example update_without_scheduler :
  Routes.status
    (fst (Routes.update_schedule_config (Some {[ "hour" := 7 ]})
            {| SchedulerService.scheduler := None |})) = 500.
Proof. reflexivity. Qed.

(** A batch whose commit was refused is taken up again by the next run:
    the decision of TJSP, rolled back in the first run, is saved by the
    second. *)
Example retry_after_refused_commit :
  let first :=
    JurisprudenciaService.collect_all_recent_jurisprudence
      [Sample.stf; Sample.tjsp] 7 Sample.tjsp_refused Sample.empty_db in
  let second :=
    JurisprudenciaService.collect_all_recent_jurisprudence
      [Sample.stf; Sample.tjsp] 7 (fun _ => true) (snd first) in
  JurisprudenciaService.total_collected (fst first) = 2 /\
  JurisprudenciaService.success (fst second)
  = ["STF: 0 decisões coletadas"; "TJSP: 1 decisões coletadas"].
Proof. split; vm_compute; reflexivity. Qed.

(** * More on the save step: which rows a batch adds *)

Section Staged.
Context {Row Key : Type} `{EqDecision Key}.
Variables (key : Row -> Key) (key_of : gmap string pyval -> Key)
  (row_of : gmap string pyval -> Row).
Hypothesis key_row_of : forall d, key (row_of d) = key_of d.

Local Abbreviation staged_rows := (Spec.staged key key_of row_of).

Lemma staged_app (seen : list Row) (l1 l2 : list pyobj) :
  staged_rows seen (l1 ++ l2)
  = staged_rows seen l1 ++ staged_rows (seen ++ staged_rows seen l1) l2.
Proof.
  revert seen. induction l1 as [|item rest IH]; intros seen; simpl.
  - by rewrite app_nil_r.
  - destruct item as [d|type_name]; [|apply IH].
    case_bool_decide; [apply IH|].
    rewrite IH. simpl. by rewrite <- app_assoc.
Qed.

Lemma staged_NoDup (seen : list Row) (items : list pyobj) :
  NoDup (key <$> seen) -> NoDup (key <$> (seen ++ staged_rows seen items)).
Proof.
  revert seen. induction items as [|item rest IH]; intros seen Hseen; simpl.
  - by rewrite app_nil_r.
  - destruct item as [d|type_name]; [|by apply IH].
    case_bool_decide as Hkey; [by apply IH|].
    replace (seen ++ row_of d :: staged_rows (seen ++ [row_of d]) rest)
      with ((seen ++ [row_of d]) ++ staged_rows (seen ++ [row_of d]) rest)
      by (by rewrite <- app_assoc).
    apply IH. rewrite fmap_app. apply NoDup_app. split; [done|]. split.
    + intros k Hk. simpl. rewrite key_row_of. intros Hin.
      apply list_elem_of_singleton in Hin. by subst.
    + simpl. apply NoDup_singleton.
Qed.

Lemma staged_from_batch (seen : list Row) (items : list pyobj) (row : Row) :
  row ∈ staged_rows seen items ->
  exists d, PyDict d ∈ items /\ row = row_of d /\ key_of d ∉ key <$> seen.
Proof.
  revert seen. induction items as [|item rest IH]; intros seen; simpl.
  - by intros Hin%elem_of_nil.
  - destruct item as [d|type_name].
    + case_bool_decide as Hkey.
      * intros (d' & Hd' & Hrow)%IH. exists d'. split; [by right | done].
      * intros [->|Hin]%elem_of_cons; [exists d; split; [by left | done]|].
        apply IH in Hin as (d' & Hd' & -> & Hnew). exists d'.
        split; [by right|]. split; [done|].
        intros Hin. apply Hnew. rewrite fmap_app. apply elem_of_app. by left.
    + intros (d' & Hd' & Hrow)%IH. exists d'. split; [by right | done].
Qed.

Lemma staged_length (seen : list Row) (items : list pyobj) :
  (length (staged_rows seen items) <= length (List.filter Spec.is_dict items))%nat.
Proof.
  revert seen. induction items as [|item rest IH]; intros seen; simpl; [done|].
  destruct item as [d|type_name]; simpl; [|apply IH].
  case_bool_decide; simpl.
  - etrans; [apply IH | lia].
  - apply le_n_S, IH.
Qed.

Lemma staged_covers (seen : list Row) (items : list pyobj) (d : gmap string pyval) :
  PyDict d ∈ items -> key_of d ∈ key <$> (seen ++ staged_rows seen items).
Proof.
  revert seen. induction items as [|item rest IH]; intros seen; simpl.
  - by intros Hin%elem_of_nil.
  - assert (Hgrow : forall seen' l, key_of d ∈ key <$> seen' ->
                                    key_of d ∈ key <$> (seen' ++ l)).
    { intros seen' l Hk. rewrite fmap_app. apply elem_of_app. by left. }
    intros [Heq|Hin]%elem_of_cons.
    + subst item. case_bool_decide as Hkey; [by apply Hgrow|].
      rewrite fmap_app. apply elem_of_app. right. simpl. rewrite key_row_of.
      by left.
    + destruct item as [d'|type_name]; [|by apply IH].
      case_bool_decide as Hkey; [by apply IH|].
      replace (seen ++ row_of d' :: staged_rows (seen ++ [row_of d']) rest)
        with ((seen ++ [row_of d']) ++ staged_rows (seen ++ [row_of d']) rest)
        by (by rewrite <- app_assoc).
      by apply IH.
Qed.

(** A dictionary whose key an earlier one of the batch has adds nothing. *)
Lemma staged_skip_repeated (seen : list Row) (before after : list pyobj)
    (d d' : gmap string pyval) :
  PyDict d' ∈ before -> key_of d' = key_of d ->
  staged_rows seen (before ++ PyDict d :: after) = staged_rows seen (before ++ after).
Proof.
  intros Hin Hkey. rewrite !staged_app. f_equal. simpl.
  rewrite bool_decide_eq_true_2; [done|].
  rewrite <- Hkey. by apply staged_covers.
Qed.
End Staged.

Section StoreFacts.
Import JurisprudenciaService Spec.

Lemma find_seen {Row Key : Type} `{EqDecision Key} (key : Row -> Key) (f : Row -> bool)
    (k : Key) (l : list Row) :
  (forall row, f row = bool_decide (key row = k)) ->
  match List.find f l with Some _ => true | None => false end
  = bool_decide (k ∈ key <$> l).
Proof.
  intros Hf. induction l as [|row l IH]; cbn [List.find fmap list_fmap].
  - symmetry. apply bool_decide_eq_false_2. by intros Hin%elem_of_nil.
  - rewrite Hf. destruct (decide (key row = k)) as [Hrow|Hrow].
    + rewrite (bool_decide_eq_true_2 (key row = k)) by done.
      symmetry. apply bool_decide_eq_true_2. rewrite <- Hrow. by left.
    + rewrite (bool_decide_eq_false_2 (key row = k)) by done.
      rewrite IH. apply bool_decide_ext. rewrite elem_of_cons.
      split; [by right | intros [Heq|Hl]; [congruence | done]].
Qed.

Lemma same_processo_key (t n : pyval) (row : Jurisprudencia) :
  Session.same_processo t n row = bool_decide (key_of_row row = (t, n)).
Proof.
  unfold Session.same_processo, key_of_row.
  repeat case_bool_decide; simpl; congruence.
Qed.

Lemma same_enunciado_key (o t n : pyval) (row : Enunciado) :
  Session.same_enunciado o t n row = bool_decide (key_of_enunciado_row row = (o, t, n)).
Proof.
  unfold Session.same_enunciado, key_of_enunciado_row.
  repeat case_bool_decide; simpl; congruence.
Qed.

Abbreviation staged_jurisprudencia :=
  (staged key_of_row key_of_decision row_of_decision).
Abbreviation staged_enunciados :=
  (staged key_of_enunciado_row key_of_enunciado row_of_enunciado).

(** The loop of [_save_jurisprudencia] adds to the session the rows
    [staged] names and counts them. *)
Lemma stage_all_jurisprudencia_staged (items : list pyobj) (db : Database) (n : Z) :
  stage_all_jurisprudencia items (db, n)
  = let rows :=
      staged_jurisprudencia (jurisprudencia db ++ new_jurisprudencia db) items in
    ({| jurisprudencia := jurisprudencia db;
        enunciados := enunciados db;
        new_jurisprudencia := new_jurisprudencia db ++ rows;
        new_enunciados := new_enunciados db |}, n + Z.of_nat (length rows)).
Proof.
  revert db n. induction items as [|item rest IH]; intros db n.
  - simpl. rewrite app_nil_r, Z.add_0_r. by destruct db.
  - rewrite stage_all_jurisprudencia_cons, stage_jurisprudencia_turn.
    destruct item as [d|type_name]; [|apply IH].
    pose proof (find_seen key_of_row _ (key_of_decision d)
                  (jurisprudencia db ++ new_jurisprudencia db)
                  (same_processo_key _ _)) as Hseen.
    unfold Session.first_jurisprudencia. cbn [staged].
    destruct (List.find _ _); rewrite <- Hseen; [apply IH|].
    rewrite IH. cbn [jurisprudencia enunciados new_jurisprudencia new_enunciados
      Session.add_jurisprudencia]. cbv zeta.
    rewrite !app_assoc, <- !(app_assoc _ [_]). cbn [app length].
    f_equal. lia.
Qed.

Lemma stage_all_enunciados_staged (items : list pyobj) (db : Database) (n : Z) :
  stage_all_enunciados items (db, n)
  = let rows := staged_enunciados (enunciados db ++ new_enunciados db) items in
    ({| jurisprudencia := jurisprudencia db;
        enunciados := enunciados db;
        new_jurisprudencia := new_jurisprudencia db;
        new_enunciados := new_enunciados db ++ rows |}, n + Z.of_nat (length rows)).
Proof.
  revert db n. induction items as [|item rest IH]; intros db n.
  - simpl. rewrite app_nil_r, Z.add_0_r. by destruct db.
  - rewrite stage_all_enunciados_cons, stage_enunciado_turn.
    destruct item as [d|type_name]; [|apply IH].
    pose proof (find_seen key_of_enunciado_row _ (key_of_enunciado d)
                  (enunciados db ++ new_enunciados db)
                  (same_enunciado_key _ _ _)) as Hseen.
    unfold Session.first_enunciado. cbn [staged].
    destruct (List.find _ _); rewrite <- Hseen; [apply IH|].
    rewrite IH. cbn [jurisprudencia enunciados new_jurisprudencia new_enunciados
      Session.add_enunciado]. cbv zeta.
    rewrite !app_assoc, <- !(app_assoc _ [_]). cbn [app length].
    f_equal. lia.
Qed.

(** The save steps in closed form. *)
Lemma save_jurisprudencia_staged (accepted : bool) (items : list pyobj) (db : Database) :
  _save_jurisprudencia accepted items db
  = let rows :=
      staged_jurisprudencia (jurisprudencia db ++ new_jurisprudencia db) items in
    if accepted then
      (Z.of_nat (length rows),
       {| jurisprudencia := jurisprudencia db ++ new_jurisprudencia db ++ rows;
          enunciados := enunciados db ++ new_enunciados db;
          new_jurisprudencia := []; new_enunciados := [] |})
    else (0, Session.rollback db).
Proof.
  rewrite save_jurisprudencia_unfold, stage_all_jurisprudencia_staged.
  by destruct accepted.
Qed.

Lemma save_enunciados_staged (accepted : bool) (items : list pyobj) (db : Database) :
  _save_enunciados accepted items db
  = let rows := staged_enunciados (enunciados db ++ new_enunciados db) items in
    if accepted then
      (Z.of_nat (length rows),
       {| jurisprudencia := jurisprudencia db ++ new_jurisprudencia db;
          enunciados := enunciados db ++ new_enunciados db ++ rows;
          new_jurisprudencia := []; new_enunciados := [] |})
    else (0, Session.rollback db).
Proof.
  rewrite save_enunciados_unfold, stage_all_enunciados_staged.
  by destruct accepted.
Qed.
End StoreFacts.

Section RunFacts.
Import JurisprudenciaService Spec.
Variable days_back : Z.

Lemma NoDup_fmap_app_l {A B : Type} (f : A -> B) (l1 l2 : list A) :
  NoDup (f <$> (l1 ++ l2)) -> NoDup (f <$> l1).
Proof. rewrite fmap_app. by intros [? _]%NoDup_app. Qed.

Lemma save_jurisprudencia_unique (accepted : bool) (items : list pyobj) (db : Database) :
  NoDup (key_of_row <$> (jurisprudencia db ++ new_jurisprudencia db)) ->
  NoDup (key_of_row <$> jurisprudencia (snd (_save_jurisprudencia accepted items db))).
Proof.
  intros Hunique. rewrite save_jurisprudencia_staged. destruct accepted; simpl.
  - rewrite app_assoc. by apply staged_NoDup.
  - by eapply NoDup_fmap_app_l.
Qed.

Lemma save_enunciados_unique (accepted : bool) (items : list pyobj) (db : Database) :
  NoDup (key_of_enunciado_row <$> (enunciados db ++ new_enunciados db)) ->
  NoDup (key_of_enunciado_row <$> enunciados (snd (_save_enunciados accepted items db))).
Proof.
  intros Hunique. rewrite save_enunciados_staged. destruct accepted; simpl.
  - rewrite app_assoc. by apply staged_NoDup.
  - by eapply NoDup_fmap_app_l.
Qed.

Lemma save_batch_unique (accepted : string -> bool) (tribunal_name : string)
    (items : list pyobj) (db : Database) :
  unique_keys db -> unique_keys (snd (save_batch accepted tribunal_name items db)).
Proof.
  intros [Hj He]. pose proof (save_batch_clean accepted tribunal_name items db) as [Hnj Hne].
  unfold unique_keys. rewrite Hnj, Hne, !app_nil_r. unfold save_batch.
  destruct (String.eqb tribunal_name "ENUNCIADOS").
  - split; [|by apply save_enunciados_unique].
    rewrite save_enunciados_staged. destruct (accepted tribunal_name); simpl; [done|].
    by eapply NoDup_fmap_app_l.
  - split; [by apply save_jurisprudencia_unique|].
    rewrite save_jurisprudencia_staged. destruct (accepted tribunal_name); simpl; [done|].
    by eapply NoDup_fmap_app_l.
Qed.

Lemma final_db_unique (accepted : string -> bool) (registry : list (string * Scraper))
    (db : Database) :
  unique_keys db -> unique_keys (final_db days_back accepted registry db).
Proof.
  revert db. induction registry as [|entry rest IH]; intros db Hunique; [done|].
  simpl. destruct (invoke days_back entry) as [items|e]; [|by apply IH].
  by apply IH, save_batch_unique.
Qed.

(** X1. Keys stay unique: if no two rows the lookup sees share a key,
    each save step leaves a table without two rows of the same key, and so
    does a whole run, whatever the sources return and the commits do. *)
Theorem run_keeps_keys_unique :
  (forall (accepted : bool) (items : list pyobj) (db : Database),
     NoDup (key_of_row <$> (jurisprudencia db ++ new_jurisprudencia db)) ->
     NoDup (key_of_row
              <$> jurisprudencia (snd (_save_jurisprudencia accepted items db)))) /\
  (forall (accepted : bool) (items : list pyobj) (db : Database),
     NoDup (key_of_enunciado_row <$> (enunciados db ++ new_enunciados db)) ->
     NoDup (key_of_enunciado_row
              <$> enunciados (snd (_save_enunciados accepted items db)))) /\
  (forall (registry : list (string * Scraper)) (accepted : string -> bool)
          (db : Database),
     unique_keys db ->
     let run := collect_all_recent_jurisprudence registry days_back accepted db in
     unique_keys (snd run) /\
     NoDup (key_of_row <$> jurisprudencia (snd run)) /\
     NoDup (key_of_enunciado_row <$> enunciados (snd run))).
Proof.
  split; [apply save_jurisprudencia_unique|].
  split; [apply save_enunciados_unique|].
  intros registry accepted db Hunique run. subst run.
  rewrite collect_all_spec. cbn [snd].
  pose proof (final_db_unique accepted registry db Hunique) as Hfinal.
  split; [done|]. destruct Hfinal as [Hj He].
  split; by eapply NoDup_fmap_app_l.
Qed.

Lemma save_batch_prefix (accepted : string -> bool) (tribunal_name : string)
    (items : list pyobj) (db : Database) :
  jurisprudencia db `prefix_of`
    jurisprudencia (snd (save_batch accepted tribunal_name items db)) /\
  enunciados db `prefix_of`
    enunciados (snd (save_batch accepted tribunal_name items db)).
Proof.
  unfold save_batch.
  destruct (String.eqb tribunal_name "ENUNCIADOS");
    [rewrite save_enunciados_staged | rewrite save_jurisprudencia_staged];
    destruct (accepted tribunal_name); simpl; split;
    first [done | by eexists].
Qed.

Lemma final_db_prefix (accepted : string -> bool) (registry : list (string * Scraper))
    (db : Database) :
  jurisprudencia db `prefix_of` jurisprudencia (final_db days_back accepted registry db) /\
  enunciados db `prefix_of` enunciados (final_db days_back accepted registry db).
Proof.
  revert db. induction registry as [|entry rest IH]; intros db; [done|].
  simpl. destruct (invoke days_back entry) as [items|e]; [|apply IH].
  destruct (save_batch_prefix accepted (fst entry) items db) as [Hj He].
  destruct (IH (snd (save_batch accepted (fst entry) items db))) as [Hj' He'].
  split; etrans; done.
Qed.

(** X2. The store only grows: after a run the rows that were committed
    before are still there, unchanged and in the same places, at the head
    of each table; a run never deletes or rewrites a committed row. *)
Theorem store_only_grows (registry : list (string * Scraper))
    (accepted : string -> bool) (db : Database) :
  let run := collect_all_recent_jurisprudence registry days_back accepted db in
  jurisprudencia db `prefix_of` jurisprudencia (snd run) /\
  enunciados db `prefix_of` enunciados (snd run) /\
  (forall (i : nat) (row : Jurisprudencia),
     jurisprudencia db !! i = Some row -> jurisprudencia (snd run) !! i = Some row).
Proof.
  intros run. subst run. rewrite collect_all_spec. cbn [snd].
  destruct (final_db_prefix accepted registry db) as [Hj He].
  split; [done|]. split; [done|].
  intros i row Hrow. by eapply prefix_lookup_Some.
Qed.

Lemma save_batch_rows (accepted : string -> bool) (tribunal_name : string)
    (items : list pyobj) (db : Database) :
  clean db ->
  rows (snd (save_batch accepted tribunal_name items db))
  = rows db + fst (save_batch accepted tribunal_name items db) /\
  0 <= fst (save_batch accepted tribunal_name items db)
    <= Z.of_nat (length (List.filter is_dict items)).
Proof.
  intros [Hj He]. unfold save_batch, rows.
  destruct (String.eqb tribunal_name "ENUNCIADOS");
    [rewrite save_enunciados_staged;
     pose proof (staged_length key_of_enunciado_row key_of_enunciado row_of_enunciado
                   (enunciados db ++ new_enunciados db) items) as Hlen
    |rewrite save_jurisprudencia_staged;
     pose proof (staged_length key_of_row key_of_decision row_of_decision
                   (jurisprudencia db ++ new_jurisprudencia db) items) as Hlen];
    destruct (accepted tribunal_name); simpl;
    rewrite ?Hj, ?He in Hlen; rewrite ?Hj, ?He, ?length_app; simpl; lia.
Qed.

Lemma final_db_rows (accepted : string -> bool) (registry : list (string * Scraper))
    (db : Database) :
  clean db ->
  rows (final_db days_back accepted registry db)
  = rows db + sum (saved_counts days_back accepted registry db) /\
  0 <= sum (saved_counts days_back accepted registry db).
Proof.
  revert db. induction registry as [|entry rest IH]; intros db Hclean.
  - unfold sum. simpl. lia.
  - rewrite saved_counts_cons. cbn [final_db].
    destruct (invoke days_back entry) as [items|e]; [|by apply IH].
    destruct (save_batch_rows accepted (fst entry) items db Hclean) as [Hrows Hcount].
    destruct (IH (snd (save_batch accepted (fst entry) items db))) as [IHrows IHsum];
      [apply save_batch_clean|].
    unfold sum in *. simpl. lia.
Qed.

(** X3. [total_collected] is the number of rows the run added: on a clean
    session the two tables have, after the run, as many rows more as the
    run reports, whatever the commits do; the count of a batch is never
    negative and never above the number of its dictionaries. *)
Theorem total_collected_counts_the_new_rows :
  (forall (registry : list (string * Scraper)) (accepted : string -> bool)
          (db : Database),
     clean db ->
     let run := collect_all_recent_jurisprudence registry days_back accepted db in
     rows (snd run) = rows db + total_collected (fst run) /\
     0 <= total_collected (fst run)) /\
  (forall (accepted : bool) (items : list pyobj) (db : Database),
     0 <= fst (_save_jurisprudencia accepted items db)
       <= Z.of_nat (length (List.filter is_dict items)) /\
     0 <= fst (_save_enunciados accepted items db)
       <= Z.of_nat (length (List.filter is_dict items))).
Proof.
  split.
  - intros registry accepted db Hclean run. subst run.
    rewrite collect_all_spec. cbn [fst snd total_collected].
    by apply final_db_rows.
  - intros accepted items db.
    rewrite save_jurisprudencia_staged, save_enunciados_staged.
    pose proof (staged_length key_of_enunciado_row key_of_enunciado row_of_enunciado
                  (enunciados db ++ new_enunciados db) items).
    pose proof (staged_length key_of_row key_of_decision row_of_decision
                  (jurisprudencia db ++ new_jurisprudencia db) items).
    destruct accepted; simpl; lia.
Qed.

(** X4. A row the save step writes comes from a dictionary of the batch
    whose key no row had, with its seven text fields, and has no dates:
    [_parse_date] returns [None] for every input, so [data_julgamento] and
    [data_publicacao] stay empty whatever the scraper extracted. *)
Theorem saved_rows_come_from_the_batch_without_dates (accepted : bool)
    (items : list pyobj) (db : Database) (row : Jurisprudencia) :
  row ∈ jurisprudencia (snd (_save_jurisprudencia accepted items db)) ->
  row ∈ jurisprudencia db \/ row ∈ new_jurisprudencia db \/
  exists d,
    PyDict d ∈ items /\
    (key_of_decision d ∉ key_of_row <$> (jurisprudencia db ++ new_jurisprudencia db)) /\
    tribunal row = dict_get d "tribunal" /\
    numero_processo row = dict_get d "numero_processo" /\
    relator row = dict_get d "relator" /\
    ementa row = dict_get d "ementa" /\
    acordao row = dict_get d "acordao" /\
    tags row = dict_get d "tags" /\
    url_origem row = dict_get d "url_origem" /\
    data_julgamento row = VNone /\ data_publicacao row = VNone.
Proof.
  rewrite save_jurisprudencia_staged. destruct accepted; simpl; [|by left].
  rewrite !elem_of_app. intros [Hrow|[Hrow|Hrow]]; [by left | by right; left |].
  right. right.
  apply (staged_from_batch key_of_row key_of_decision row_of_decision)
    in Hrow as (d & Hd & -> & Hnew).
  exists d. repeat split; try done.
  - unfold row_of_decision, _parse_date. simpl. by destruct (negb _).
  - unfold row_of_decision, _parse_date. simpl. by destruct (negb _).
Qed.

(** X5. Within one batch the first record of a key wins: a dictionary
    with the key of an earlier dictionary of the same batch is skipped,
    and the save step gives the count and the store it gives without it. *)
Theorem repeated_key_in_a_batch_is_skipped (accepted : bool)
    (before after : list pyobj) (d d' : gmap string pyval) (db : Database) :
  PyDict d' ∈ before ->
  (key_of_decision d' = key_of_decision d ->
   _save_jurisprudencia accepted (before ++ PyDict d :: after) db
   = _save_jurisprudencia accepted (before ++ after) db) /\
  (key_of_enunciado d' = key_of_enunciado d ->
   _save_enunciados accepted (before ++ PyDict d :: after) db
   = _save_enunciados accepted (before ++ after) db).
Proof.
  intros Hin. split; intros Hkey.
  - rewrite !save_jurisprudencia_staged.
    by rewrite (staged_skip_repeated key_of_row key_of_decision row_of_decision)
      with (d' := d').
  - rewrite !save_enunciados_staged.
    by rewrite (staged_skip_repeated key_of_enunciado_row key_of_enunciado
                  row_of_enunciado) with (d' := d').
Qed.
End RunFacts.

Lemma run_keeps_keys_unique_witness :
  Spec.unique_keys Sample.stored /\
  Spec.unique_keys
    (snd (JurisprudenciaService.collect_all_recent_jurisprudence
            [Sample.stf; Sample.stj; Sample.tjsp] 7 Sample.tjsp_refused Sample.stored)).
Proof.
  assert (Hunique : Spec.unique_keys Sample.stored).
  { split; simpl; [apply NoDup_singleton | apply NoDup_nil_2]. }
  split; [exact Hunique|].
  destruct (run_keeps_keys_unique 7) as (_ & _ & Hrun).
  exact (proj1 (Hrun [Sample.stf; Sample.stj; Sample.tjsp] Sample.tjsp_refused
                  Sample.stored Hunique)).
Defined.

Lemma total_collected_counts_the_new_rows_witness :
  let run :=
    JurisprudenciaService.collect_all_recent_jurisprudence
      [Sample.stf; Sample.stj; Sample.tjsp] 7 Sample.tjsp_refused Sample.stored in
  Spec.rows (snd run) = 2 /\ JurisprudenciaService.total_collected (fst run) = 1.
Proof.
  destruct (total_collected_counts_the_new_rows 7) as [Hrun _].
  pose proof (Hrun [Sample.stf; Sample.stj; Sample.tjsp] Sample.tjsp_refused
                Sample.stored (conj eq_refl eq_refl)) as [Hrows _].
  cbv zeta. split; [etrans; [exact Hrows|] |]; vm_compute; reflexivity.
Defined.

Lemma saved_rows_come_from_the_batch_without_dates_witness :
  let row := Spec.row_of_decision
               (list_to_map [("tribunal", VStr "STJ"); ("numero_processo", VStr "9");
                             ("data_julgamento", VStr "01/02/2024")]) in
  let items := [PyDict (list_to_map [("tribunal", VStr "STJ");
                                     ("numero_processo", VStr "9");
                                     ("data_julgamento", VStr "01/02/2024")])] in
  row ∈ jurisprudencia
          (snd (JurisprudenciaService._save_jurisprudencia true items Sample.stored)) /\
  data_julgamento row = VNone.
Proof.
  cbv zeta.
  assert (Hrow :
    Spec.row_of_decision
      (list_to_map [("tribunal", VStr "STJ"); ("numero_processo", VStr "9");
                    ("data_julgamento", VStr "01/02/2024")])
    ∈ jurisprudencia
        (snd (JurisprudenciaService._save_jurisprudencia true
                [PyDict (list_to_map [("tribunal", VStr "STJ");
                                      ("numero_processo", VStr "9");
                                      ("data_julgamento", VStr "01/02/2024")])]
                Sample.stored))).
  { vm_compute. apply list_elem_of_further, list_elem_of_here. }
  split; [exact Hrow|].
  destruct (saved_rows_come_from_the_batch_without_dates true _ Sample.stored _ Hrow)
    as [Hold|[Hold|(d & _ & _ & _ & _ & _ & _ & _ & _ & _ & Hdate & _)]].
  - reflexivity.
  - reflexivity.
  - exact Hdate.
Defined.

Lemma repeated_key_in_a_batch_is_skipped_witness :
  JurisprudenciaService._save_jurisprudencia true
    [Sample.decision "STJ" "5"; PyOther "NoneType"; Sample.decision "STJ" "5";
     Sample.decision "STJ" "6"] Sample.stored
  = JurisprudenciaService._save_jurisprudencia true
      [Sample.decision "STJ" "5"; PyOther "NoneType"; Sample.decision "STJ" "6"]
      Sample.stored.
Proof.
  exact (proj1 (repeated_key_in_a_batch_is_skipped true
                  [Sample.decision "STJ" "5"; PyOther "NoneType"]
                  [Sample.decision "STJ" "6"] _ _ Sample.stored
                  (list_elem_of_here _ _)) eq_refl).
Defined.

(** * What [clean_text] keeps *)

Section CleanTextWords.
Context {char : Type} `{PyChar char}.

Local Abbreviation no_space := (Forall (fun c : char => isspace c = false)).
Local Abbreviation visible := (List.filter (fun c : char => negb (isspace c))).

Lemma clean_text_is_join (text : list char) :
  clean_text (Some text) = join [blank] (split text).
Proof.
  destruct text as [|c t]; [done|].
  unfold clean_text. apply strip_trimmed, join_trimmed, split_words.
Qed.

Lemma split_aux_nil (word text : list char) :
  split_aux word text = [] <-> word = [] /\ Forall (fun c => isspace c = true) text.
Proof.
  revert word. induction text as [|c rest IH]; intros word; simpl.
  - destruct word; [by split | split; [done | by intros [? _]]].
  - destruct (isspace c) eqn:Hc.
    + destruct word.
      * rewrite IH. split; intros [? Hrest]; (split; [done|]).
        -- by constructor.
        -- by inversion Hrest.
      * split; [done | by intros [? _]].
    + rewrite IH. split.
      * intros [Hword _]. by destruct word.
      * intros [_ Hall]. inversion Hall; congruence.
Qed.

Lemma join_nil (words : list (list char)) :
  Forall is_word words -> join [blank] words = [] -> words = [].
Proof.
  intros Hws Hjoin. destruct Hws as [|w ws [Hne _] _]; [done|].
  pose proof (join_head w ws Hne) as Hhead. rewrite Hjoin in Hhead.
  by destruct w.
Qed.

(** X6. [clean_text] changes the white space only: its result is the words
    of the text joined by single blanks (the [strip] that ends it finds
    nothing to remove), splitting it gives the words of the text back, it
    is empty exactly for a text of space characters, and two texts are
    cleaned to the same string exactly when they have the same words. *)
Theorem clean_text_keeps_the_words :
  (forall text : list char,
     clean_text (Some text) = join [blank] (split text) /\
     split (clean_text (Some text)) = split text /\
     (clean_text (Some text) = []
      <-> Forall (fun c => isspace c = true) text)) /\
  (forall text1 text2 : list char,
     clean_text (Some text1) = clean_text (Some text2) <-> split text1 = split text2).
Proof.
  assert (Hsplit : forall text : list char,
            split (clean_text (Some text)) = split text).
  { intros text. rewrite clean_text_is_join. apply split_join, split_words. }
  split.
  - intros text. split; [apply clean_text_is_join|]. split; [apply Hsplit|].
    rewrite clean_text_is_join. split.
    + intros Hjoin%join_nil; [|apply split_words].
      by apply split_aux_nil in Hjoin as [_ Hall].
    + intros Hall. unfold split.
      by rewrite (proj2 (split_aux_nil [] text) (conj eq_refl Hall)).
  - intros text1 text2. split.
    + intros Hclean. by rewrite <- (Hsplit text1), Hclean, Hsplit.
    + intros Hwords. by rewrite !clean_text_is_join, Hwords.
Qed.

Lemma visible_no_space (w : list char) : no_space w -> visible w = w.
Proof.
  induction 1 as [|c w Hc Hw IH]; [done|]. simpl. by rewrite Hc, IH.
Qed.

Lemma split_aux_concat (word text : list char) :
  no_space word -> concat (split_aux word text) = word ++ visible text.
Proof.
  revert word. induction text as [|c rest IH]; intros word Hword; simpl.
  - destruct word; [done|]. simpl. by rewrite !app_nil_r.
  - destruct (isspace c) eqn:Hc; simpl.
    + destruct word; [by apply IH|]. simpl. rewrite IH by constructor. done.
    + rewrite IH, <- app_assoc; [done|].
      apply Forall_app. split; [done | by repeat constructor].
Qed.

Lemma join_visible (words : list (list char)) :
  Forall is_word words -> visible (join [blank] words) = concat words.
Proof.
  induction 1 as [|w ws [Hne Hw] Hws IH]; [done|].
  destruct ws as [|w2 ws].
  - simpl. by rewrite app_nil_r, visible_no_space.
  - rewrite join_cons_cons, List.filter_app, visible_no_space by done.
    cbn [List.filter]. rewrite isspace_blank. simpl negb. cbv iota.
    by rewrite IH.
Qed.

Lemma join_cons_length (w : list char) (ws : list (list char)) :
  (length (join [blank] (w :: ws)) <= length w + 1 + length (join [blank] ws))%nat.
Proof.
  destruct ws as [|w2 ws]; [simpl; lia|].
  rewrite join_cons_cons, length_app. simpl. lia.
Qed.

Lemma split_aux_length (word text : list char) :
  (length (join [blank] (split_aux word text)) <= length word + length text)%nat.
Proof.
  revert word. induction text as [|c rest IH]; intros word; simpl.
  - destruct word; simpl; lia.
  - destruct (isspace c).
    + destruct word as [|c' word']; [specialize (IH []); simpl in IH; lia|].
      etrans; [apply join_cons_length|]. specialize (IH []). simpl in *. lia.
    + etrans; [apply IH|]. rewrite length_app. simpl. lia.
Qed.

(** X7. [clean_text] removes and replaces space characters only: the
    characters of its result that are no spaces are those of the text,
    in order, and the result is never longer than the text. *)
Theorem clean_text_only_drops_spaces (text : list char) :
  List.filter (fun c => negb (isspace c)) (clean_text (Some text))
  = List.filter (fun c => negb (isspace c)) text /\
  (length (clean_text (Some text)) <= length text)%nat.
Proof.
  rewrite clean_text_is_join. split.
  - rewrite join_visible by apply split_words.
    unfold split. by rewrite split_aux_concat by constructor.
  - apply (split_aux_length [] text).
Qed.
End CleanTextWords.

(** * What the scrapers hand over *)

Lemma dict_get_insert_here (k : string) (v : pyval) (d : gmap string pyval) :
  dict_get (<[k := v]> d) k = v.
Proof. unfold dict_get. by rewrite lookup_insert_eq. Qed.

Lemma dict_get_insert_further (k k' : string) (v : pyval) (d : gmap string pyval) :
  k' <> k -> dict_get (<[k' := v]> d) k = dict_get d k.
Proof. intros Hne. unfold dict_get. by rewrite lookup_insert_ne. Qed.

Ltac dict_fields :=
  repeat first [rewrite dict_get_insert_here
               | rewrite dict_get_insert_further by done].

Section HarvestFacts.
Context `{World}.
Import Spec.

Lemma extract_all_raises (self : BaseScraper.t) (decisions : list pyobj)
    (decision : pyobj) (e : string) (acc : list (gmap string pyval)) :
  decision ∈ decisions -> details_of self decision = Raise e ->
  exists e', BaseScraper.extract_all self decisions acc = Raise e'.
Proof.
  intros Hin Hraise. revert acc.
  induction decisions as [|first rest IH]; intros acc; [by apply elem_of_nil in Hin|].
  cbn [BaseScraper.extract_all].
  destruct (get first "url") as [url|] eqn:Hurl; cbn [bind]; [|by eexists].
  destruct (BaseScraper.extract_decision_details self url) as [details|] eqn:Hextract;
    cbn [bind]; [|by eexists].
  apply elem_of_cons in Hin as [->|Hin]; [|by apply IH].
  unfold details_of in Hraise. rewrite Hurl in Hraise. cbn [bind] in Hraise. congruence.
Qed.

Lemma extract_all_results (self : BaseScraper.t) (decisions : list pyobj)
    (acc found : list (gmap string pyval)) :
  BaseScraper.extract_all self decisions acc = Ok found ->
  (length found <= length acc + length decisions)%nat /\
  forall d, d ∈ found ->
    d ∈ acc \/
    (d <> ∅ /\ exists decision,
        decision ∈ decisions /\ details_of self decision = Ok (Some d)).
Proof.
  revert acc. induction decisions as [|first rest IH]; intros acc.
  - intros [= <-]. split; [simpl; lia | by left].
  - cbn [BaseScraper.extract_all].
    destruct (get first "url") as [url|] eqn:Hurl; cbn [bind]; [|done].
    destruct (BaseScraper.extract_decision_details self url) as [details|] eqn:Hextract;
      cbn [bind]; [|done].
    assert (Hdetails : details_of self first = Ok details).
    { unfold details_of. rewrite Hurl. cbn [bind]. exact Hextract. }
    intros [Hlen Hfound]%IH. split.
    + destruct details as [d'|]; [case_bool_decide|];
        rewrite ?length_app in Hlen; simpl in *; lia.
    + intros d [Hacc|(Hne & decision & Hin & Hd)]%Hfound.
      * destruct details as [d'|]; [case_bool_decide as Hempty|]; [by left| |by left].
        apply elem_of_app in Hacc as [Hacc|Hlast]; [by left|].
        apply list_elem_of_singleton in Hlast as ->. right. split; [done|].
        exists first. split; [apply list_elem_of_here | done].
      * right. split; [done|]. exists decision. split; [by right | done].
Qed.

(** X8. One failure empties the harvest: when the search raises, when a
    candidate is no dictionary, or when the detail page of one candidate
    raises, [get_recent_jurisprudence] returns the empty list, also the
    details it had extracted from the candidates before. *)
Theorem one_failure_empties_the_harvest (self : BaseScraper.t) (days_back : Z) :
  (forall e,
     BaseScraper.search_recent_decisions self days_back = Raise e ->
     BaseScraper.get_recent_jurisprudence self days_back = []) /\
  (forall decisions decision e,
     BaseScraper.search_recent_decisions self days_back = Ok decisions ->
     decision ∈ decisions -> details_of self decision = Raise e ->
     BaseScraper.get_recent_jurisprudence self days_back = []) /\
  (forall decisions type_name,
     BaseScraper.search_recent_decisions self days_back = Ok decisions ->
     PyOther type_name ∈ decisions ->
     BaseScraper.get_recent_jurisprudence self days_back = []).
Proof.
  assert (Hany : forall decisions decision e,
            BaseScraper.search_recent_decisions self days_back = Ok decisions ->
            decision ∈ decisions -> details_of self decision = Raise e ->
            BaseScraper.get_recent_jurisprudence self days_back = []).
  { intros decisions decision e Hsearch Hin Hraise.
    unfold BaseScraper.get_recent_jurisprudence. rewrite Hsearch. cbn [bind].
    destruct (extract_all_raises self decisions decision e [] Hin Hraise) as [e' ->].
    done. }
  split; [|split].
  - intros e Hsearch. unfold BaseScraper.get_recent_jurisprudence. by rewrite Hsearch.
  - exact Hany.
  - intros decisions type_name Hsearch Hin. by eapply Hany.
Qed.

(** X9. What [get_recent_jurisprudence] returns was extracted: each
    dictionary of the result is non-empty and is what
    [extract_decision_details] returned for the [url] of a candidate of
    the search, and there are at most as many as candidates. *)
Theorem harvest_holds_details_of_candidates (self : BaseScraper.t) (days_back : Z) :
  (forall d,
     d ∈ BaseScraper.get_recent_jurisprudence self days_back ->
     d <> ∅ /\
     exists decisions decision,
       BaseScraper.search_recent_decisions self days_back = Ok decisions /\
       decision ∈ decisions /\ details_of self decision = Ok (Some d)) /\
  (forall decisions,
     BaseScraper.search_recent_decisions self days_back = Ok decisions ->
     (length (BaseScraper.get_recent_jurisprudence self days_back)
      <= length decisions)%nat).
Proof.
  unfold BaseScraper.get_recent_jurisprudence. split.
  - intros d.
    destruct (BaseScraper.search_recent_decisions self days_back) as [decisions|e];
      cbn [bind]; [|by intros ?%elem_of_nil].
    destruct (BaseScraper.extract_all self decisions []) as [found|e] eqn:Hfound;
      cbn [try_except]; [|by intros ?%elem_of_nil].
    apply extract_all_results in Hfound as [_ Hfound].
    intros [Hnil|(Hne & decision & Hin & Hd)]%Hfound; [by apply elem_of_nil in Hnil|].
    split; [done|]. by exists decisions, decision.
  - intros decisions ->. cbn [bind].
    destruct (BaseScraper.extract_all self decisions []) as [found|e] eqn:Hfound;
      cbn [try_except]; [|simpl; lia].
    by apply extract_all_results in Hfound as [Hlen _].
Qed.

Lemma stj_basic_info (item : element) (c : gmap string pyval) :
  STJScraper._extract_basic_info item = Some c ->
  dict_get c "tribunal" = VStr "STJ" /\
  (exists url, dict_get c "url" = VStr url /\ String.prefix "http" url = true) /\
  (exists n, dict_get c "numero_processo" = VStr n) /\
  (exists r, dict_get c "relator" = VStr r).
Proof.
  unfold STJScraper._extract_basic_info.
  destruct (element_find_href item) as [href|]; [|done]. intros [= <-].
  dict_fields. split; [done|]. split; [|by eauto].
  eexists. split; [done|].
  by destruct (String.prefix "http" href) eqn:Hhref.
Qed.

(** X10. Every candidate of the search of the STJ is labelled ["STJ"],
    carries an absolute address (a link that does not start with [http]
    is put behind [base_url]) and has strings, possibly empty, for the
    process number and the relator. *)
Theorem stj_candidates_are_well_formed (days_back : Z) (c : gmap string pyval) :
  c ∈ STJScraper.search_recent_decisions days_back ->
  dict_get c "tribunal" = VStr "STJ" /\
  (exists url, dict_get c "url" = VStr url /\ String.prefix "http" url = true) /\
  (exists n, dict_get c "numero_processo" = VStr n) /\
  (exists r, dict_get c "relator" = VStr r).
Proof.
  unfold STJScraper.search_recent_decisions.
  destruct (STJScraper.start_date days_back); cbn [bind try_except];
    [|by intros ?%elem_of_nil].
  destruct (BaseScraper.get_page (VStr STJScraper.search_url)) as [[text|]|];
    cbn [bind try_except]; [|by intros ?%elem_of_nil..].
  destruct (parse_html text) as [page|]; cbn [bind try_except];
    [|by intros ?%elem_of_nil].
  intros (item & _ & Hitem)%list_elem_of_omap. by eapply stj_basic_info.
Qed.

(** X11. The search of the STJ uses [days_back] for nothing but the start
    date it computes and drops: when that date cannot be held the search
    gives no candidate, and for any two values for which it can the
    search gives the same candidates. *)
Theorem stj_search_only_checks_the_window :
  (forall days_back,
     ~ in_window days_back -> STJScraper.search_recent_decisions days_back = []) /\
  (forall d1 d2,
     in_window d1 -> in_window d2 ->
     STJScraper.search_recent_decisions d1 = STJScraper.search_recent_decisions d2).
Proof.
  assert (Hin : forall d, in_window d ->
            STJScraper.start_date d = Ok (today - d)).
  { intros d [Hdays Hdate]. unfold STJScraper.start_date.
    replace ((Z.abs d <=? 999999999) && (1 <=? today - d)
             && (today - d <=? 3652059)) with true by lia.
    done. }
  split.
  - intros days_back Hout.
    unfold STJScraper.search_recent_decisions, STJScraper.start_date.
    destruct ((Z.abs days_back <=? 999999999) && (1 <=? today - days_back)
              && (today - days_back <=? 3652059)) eqn:Hwindow; [|done].
    exfalso. apply Hout. unfold in_window. lia.
  - intros d1 d2 H1 H2. unfold STJScraper.search_recent_decisions.
    by rewrite (Hin d1 H1), (Hin d2 H2).
Qed.

Lemma clean_text_str_again (text : option string) :
  clean_text_str (Some (clean_text_str text)) = clean_text_str text.
Proof.
  unfold clean_text_str. simpl fmap.
  rewrite list_ascii_of_string_of_list_ascii.
  destruct (clean_text_join (list_ascii_of_string <$> text)) as (words & Hws & ->).
  by rewrite clean_text_again.
Qed.

Lemma text_of_normalised (found : option element) : normalised (STJScraper.text_of found).
Proof.
  destruct found as [e|]; simpl.
  - eexists. split; [done|]. apply clean_text_str_again.
  - by exists "".
Qed.

Lemma date_of_normalised (found : option element) :
  STJScraper.date_of found = VNone \/ normalised (STJScraper.date_of found).
Proof.
  destruct found as [e|]; simpl; [right | by left].
  eexists. split; [done|]. apply clean_text_str_again.
Qed.

(** X12. The details the STJ scraper extracts are labelled ["STJ"], keep
    the address they were asked for as [url_origem], which is a string,
    and hold texts that [clean_text] leaves as they are for the process
    number, the relator, the summary and the ruling; each of the two
    dates is such a text or [None]. *)
Theorem stj_details_are_normalised (decision_url : pyval) (d : gmap string pyval) :
  STJScraper.extract_decision_details decision_url = Some d ->
  dict_get d "tribunal" = VStr "STJ" /\
  dict_get d "url_origem" = decision_url /\
  (exists url, decision_url = VStr url) /\
  normalised (dict_get d "numero_processo") /\
  normalised (dict_get d "relator") /\
  normalised (dict_get d "ementa") /\
  normalised (dict_get d "acordao") /\
  (dict_get d "data_julgamento" = VNone \/ normalised (dict_get d "data_julgamento")) /\
  (dict_get d "data_publicacao" = VNone \/ normalised (dict_get d "data_publicacao")) /\
  (exists tags, dict_get d "tags" = VStr tags).
Proof.
  unfold STJScraper.extract_decision_details.
  destruct (BaseScraper.get_page decision_url) as [[text|]|] eqn:Hpage;
    cbn [bind try_except]; [|done..].
  destruct (parse_html text) as [page|]; cbn [bind try_except]; [|done].
  intros [= <-].
  dict_fields. split; [done|]. split; [done|]. split.
  { destruct decision_url as [|url|z]; [done| by exists url | done]. }
  unfold STJScraper._extract_detailed_process_number, STJScraper._extract_detailed_relator,
    STJScraper._extract_ementa, STJScraper._extract_acordao,
    STJScraper._extract_judgment_date, STJScraper._extract_publication_date,
    STJScraper._extract_tags.
  repeat split; first [apply text_of_normalised | apply date_of_normalised | by eexists].
Qed.
End HarvestFacts.

Section EnunciadosFacts.
Context `{World}.
Import Spec.

Lemma parsed_enunciado_labelled (text orgao tipo url : string) (d : gmap string pyval) :
  EnunciadosScraper._parse_enunciado_text text orgao tipo url = Some d ->
  dict_get d "orgao" = VStr orgao /\ dict_get d "tipo" = VStr (upper tipo) /\
  dict_get d "url_origem" = VStr url /\
  (exists n, dict_get d "numero" = VInt n) /\
  (exists t, dict_get d "texto" = VStr t) /\
  (exists o, dict_get d "observacoes" = VStr o).
Proof.
  unfold EnunciadosScraper._parse_enunciado_text.
  destruct (match re_search _ text [IGNORECASE] with
            | Some numero_match => int (group numero_match 1)
            | None => Ok 0
            end) as [n|e]; cbn [bind try_except]; [|done].
  intros [= <-]. dict_fields. by eauto 10.
Qed.

Lemma parse_elements_labelled (elements : list element) (orgao tipo url : string)
    (d : gmap string pyval) :
  d ∈ EnunciadosScraper.parse_elements elements orgao tipo url ->
  dict_get d "orgao" = VStr orgao /\ dict_get d "tipo" = VStr (upper tipo) /\
  dict_get d "url_origem" = VStr url /\
  (exists n, dict_get d "numero" = VInt n) /\
  (exists t, dict_get d "texto" = VStr t) /\
  (exists o, dict_get d "observacoes" = VStr o).
Proof.
  unfold EnunciadosScraper.parse_elements.
  intros (e & _ & Hparsed)%list_elem_of_omap.
  destruct (EnunciadosScraper._is_enunciado _); [|done].
  by eapply parsed_enunciado_labelled.
Qed.

Lemma fonaje_labelled (url tipo : string) (d : gmap string pyval) :
  d ∈ EnunciadosScraper._scrape_fonaje_enunciados url tipo ->
  dict_get d "orgao" = VStr "FONAJE" /\ dict_get d "tipo" = VStr (upper tipo) /\
  dict_get d "url_origem" = VStr url /\
  (exists n, dict_get d "numero" = VInt n) /\
  (exists t, dict_get d "texto" = VStr t) /\
  (exists o, dict_get d "observacoes" = VStr o).
Proof.
  unfold EnunciadosScraper._scrape_fonaje_enunciados.
  destruct (BaseScraper.get_page (VStr url)) as [[text|]|]; cbn [bind try_except];
    [|by intros ?%elem_of_nil..].
  destruct (parse_html text) as [page|]; cbn [bind try_except];
    [|by intros ?%elem_of_nil].
  apply parse_elements_labelled.
Qed.

Lemma cnj_labelled (d : gmap string pyval) :
  d ∈ EnunciadosScraper._scrape_cnj_enunciados ->
  dict_get d "orgao" = VStr "CNJ" /\ dict_get d "tipo" = VStr "GERAL" /\
  dict_get d "url_origem" = VStr EnunciadosScraper.cnj_url /\
  (exists n, dict_get d "numero" = VInt n) /\
  (exists t, dict_get d "texto" = VStr t) /\
  (exists o, dict_get d "observacoes" = VStr o).
Proof.
  unfold EnunciadosScraper._scrape_cnj_enunciados.
  destruct (BaseScraper.get_page (VStr EnunciadosScraper.cnj_url)) as [[text|]|];
    cbn [bind try_except]; [|by intros ?%elem_of_nil..].
  destruct (parse_html text) as [page|]; cbn [bind try_except];
    [|by intros ?%elem_of_nil].
  apply parse_elements_labelled.
Qed.

Lemma extract_all_none (self : BaseScraper.t) (candidates : list pyobj)
    (acc : list (gmap string pyval)) :
  (forall url, BaseScraper.extract_decision_details self url = Ok None) ->
  Forall (fun c => is_dict c = true) candidates ->
  BaseScraper.extract_all self candidates acc = Ok acc.
Proof.
  intros Hnone Hdicts. revert acc.
  induction Hdicts as [|c cs Hc Hcs IH]; intros acc; [done|].
  destruct c as [d|]; [|done]. cbn [BaseScraper.extract_all get bind].
  rewrite Hnone. cbn [bind]. apply IH.
Qed.

(** X13. Every enunciado the scraper returns is labelled by the page it
    was read from: FONAJE with the kind CIVEIS, CRIMINAIS or
    FAZENDA_PUBLICA and the address of that page, or CNJ with the kind
    GERAL; its number is an integer and its text and remarks are strings.
    The inherited [get_recent_jurisprudence] returns no enunciado at all,
    the detail step giving [None] for each. *)
Theorem enunciados_are_labelled_by_their_page :
  (forall d,
     d ∈ EnunciadosScraper.get_all_enunciados ->
     (dict_get d "orgao", dict_get d "tipo", dict_get d "url_origem") ∈ page_labels /\
     (dict_get d "orgao" = VStr "FONAJE" /\
      dict_get d "tipo" ∈ [VStr "CIVEIS"; VStr "CRIMINAIS"; VStr "FAZENDA_PUBLICA"]
      \/ dict_get d "orgao" = VStr "CNJ" /\ dict_get d "tipo" = VStr "GERAL") /\
     (exists n, dict_get d "numero" = VInt n) /\
     (exists t, dict_get d "texto" = VStr t) /\
     (exists o, dict_get d "observacoes" = VStr o)) /\
  (forall days_back,
     BaseScraper.get_recent_jurisprudence EnunciadosScraper.scraper days_back = []).
Proof.
  split.
  - intros d. unfold EnunciadosScraper.get_all_enunciados, EnunciadosScraper.fonaje_urls.
    cbn [map concat]. rewrite app_nil_r, !elem_of_app.
    unfold page_labels, EnunciadosScraper.fonaje_urls. cbn [map app].
    intros [[Hd|[Hd|Hd]]|Hd];
      [apply fonaje_labelled in Hd as (-> & -> & -> & Hn & Ht & Ho)..
      |apply cnj_labelled in Hd as (-> & -> & -> & Hn & Ht & Ho)].
    + split; [apply list_elem_of_here|]. split; [left; split; [done|]|done].
      apply list_elem_of_here.
    + split; [apply list_elem_of_further, list_elem_of_here|].
      split; [left; split; [done|]|done].
      apply list_elem_of_further, list_elem_of_here.
    + split; [do 2 apply list_elem_of_further; apply list_elem_of_here|].
      split; [left; split; [done|]|done].
      do 2 apply list_elem_of_further. apply list_elem_of_here.
    + split; [do 3 apply list_elem_of_further; apply list_elem_of_here|].
      split; [by right | done].
  - intros days_back. unfold BaseScraper.get_recent_jurisprudence.
    cbn [EnunciadosScraper.scraper BaseScraper.search_recent_decisions bind].
    rewrite extract_all_none; [done | done |].
    apply Forall_fmap, Forall_true. done.
Qed.
End EnunciadosFacts.

Lemma one_failure_empties_the_harvest_witness :
  BaseScraper.get_recent_jurisprudence Sample.broken_candidate 7 = [].
Proof.
  destruct (one_failure_empties_the_harvest Sample.broken_candidate 7)
    as (_ & _ & Hother).
  apply (Hother _ "NoneType" eq_refl).
  apply list_elem_of_further, list_elem_of_here.
Defined.

Lemma harvest_holds_details_of_candidates_witness :
  default ∅ (head (BaseScraper.get_recent_jurisprudence
                     (@STJScraper.scraper Sample.world) 7)) <> ∅.
Proof.
  destruct (harvest_holds_details_of_candidates (@STJScraper.scraper Sample.world) 7)
    as [Hd _].
  apply Hd. vm_compute. apply list_elem_of_here.
Defined.

Lemma stj_candidates_are_well_formed_witness :
  dict_get (default ∅ (head (@STJScraper.search_recent_decisions Sample.world 7)))
    "tribunal" = VStr "STJ".
Proof.
  apply (@stj_candidates_are_well_formed Sample.world 7).
  vm_compute. apply list_elem_of_here.
Defined.

Lemma stj_search_only_checks_the_window_witness :
  @STJScraper.search_recent_decisions Sample.world 7
  = @STJScraper.search_recent_decisions Sample.world 30.
Proof.
  apply (@stj_search_only_checks_the_window Sample.world);
    unfold Spec.in_window; simpl; lia.
Defined.

Lemma stj_details_are_normalised_witness :
  Spec.normalised
    (dict_get
       (default ∅ (@STJScraper.extract_decision_details Sample.world
                     (VStr "https://www.stj.jus.br/d/1")))
       "ementa").
Proof.
  apply (@stj_details_are_normalised Sample.world (VStr "https://www.stj.jus.br/d/1")).
  vm_compute. reflexivity.
Defined.

Lemma enunciados_are_labelled_by_their_page_witness :
  dict_get (default ∅ (head (@EnunciadosScraper.get_all_enunciados Sample.cnj_world)))
    "numero" = VInt 5 /\
  (dict_get (default ∅ (head (@EnunciadosScraper.get_all_enunciados Sample.cnj_world)))
     "orgao",
   dict_get (default ∅ (head (@EnunciadosScraper.get_all_enunciados Sample.cnj_world)))
     "tipo",
   dict_get (default ∅ (head (@EnunciadosScraper.get_all_enunciados Sample.cnj_world)))
     "url_origem") ∈ Spec.page_labels.
Proof.
  split; [vm_compute; reflexivity|].
  apply (@enunciados_are_labelled_by_their_page Sample.cnj_world).
  vm_compute. apply list_elem_of_here.
Defined.

(** * More on the scheduler *)

Section SchedulerMore.
Import Spec.

Lemma service_remove_present (job_id : string) (self : SchedulerService.t)
    (s : BackgroundScheduler) (job : Job) :
  SchedulerService.scheduler self = Some s -> jobs s !! job_id = Some job ->
  SchedulerService.remove_job job_id self
  = ([("success", JBool true);
      ("message", JStr ("Job " ++ job_id ++ " removido com sucesso")%string)],
     {| SchedulerService.scheduler :=
          Some {| jobs := delete job_id (jobs s); running := running s |} |}).
Proof.
  intros Hs Hjob. unfold SchedulerService.remove_job, APScheduler.get_job,
    APScheduler.remove_job.
  by rewrite Hs, Hjob.
Qed.

Lemma service_remove_none (job_id : string) (self : SchedulerService.t) :
  SchedulerService.scheduler self = None ->
  SchedulerService.remove_job job_id self
  = ([("success", JBool false); ("message", JStr "Scheduler não inicializado")], self).
Proof. intros Hs. unfold SchedulerService.remove_job. by rewrite Hs. Qed.

(** The three ways a schedule update ends. *)
Lemma update_schedule_config_cases (data : option (gmap string Z))
    (self : SchedulerService.t) :
  (Routes.status (fst (Routes.update_schedule_config data self)) = 400 /\
   snd (Routes.update_schedule_config data self) = self /\
   ~ (exists d h, data = Some d /\ d !! "hour" = Some h /\ 0 <= h <= 23 /\
                  0 <= default 0 (d !! "minute") <= 59)) \/
  (exists d h,
     data = Some d /\ d !! "hour" = Some h /\ 0 <= h <= 23 /\
     0 <= default 0 (d !! "minute") <= 59 /\
     match SchedulerService.scheduler self with
     | None =>
         Routes.update_schedule_config data self
         = (Routes.internal_error "'NoneType' object has no attribute 'add_job'", self)
     | Some s =>
         Routes.status (fst (Routes.update_schedule_config data self)) = 200 /\
         snd (Routes.update_schedule_config data self)
         = {| SchedulerService.scheduler :=
                Some {| jobs := <["daily_jurisprudence" :=
                                    daily_job h (default 0 (d !! "minute"))]> (jobs s);
                        running := running s |} |}
     end).
Proof.
  destruct data as [d|]; [|left; split; [done|]; split; [done|]; by intros (? & ? & ? & _)].
  unfold Routes.update_schedule_config.
  case_bool_decide as Hempty.
  { left. split; [done|]. split; [done|]. intros (d' & h & [= <-] & Hh & _).
    by rewrite Hempty, lookup_empty in Hh. }
  destruct (d !! "hour") as [h|] eqn:Hh.
  2:{ left. split; [done|]. split; [done|]. intros (d' & h & [= <-] & Hh' & _).
      congruence. }
  destruct ((0 <=? h) && (h <=? 23)) eqn:Hhour; cbn [negb].
  2:{ left. split; [done|]. split; [done|].
      intros (d' & h' & [= <-] & Hh' & Hrange & _).
      assert (h' = h) as -> by congruence. lia. }
  destruct ((0 <=? default 0 (d !! "minute")) && (default 0 (d !! "minute") <=? 59))
    eqn:Hminute; cbn [negb].
  2:{ left. split; [done|]. split; [done|].
      intros (d' & h' & [= <-] & _ & _ & Hrange). lia. }
  right. exists d, h. split; [done|]. split; [done|].
  split; [lia|]. split; [lia|].
  destruct (SchedulerService.scheduler self) as [s|] eqn:Hs.
  - destruct (replace_daily_job self s
                (daily_job h (default 0 (d !! "minute"))) Hs) as (s' & Hs' & Hadd).
    destruct (SchedulerService.remove_job "daily_jurisprudence" self)
      as [reply removed].
    simpl in Hs'. rewrite Hs'. unfold APScheduler.cron_trigger.
    replace ((0 <=? h) && (h <=? 23) && (0 <=? default 0 (d !! "minute"))
             && (default 0 (d !! "minute") <=? 59)) with true by lia.
    simpl. fold (daily_job h (default 0 (d !! "minute"))). by rewrite Hadd.
  - rewrite service_remove_none by done. by rewrite Hs.
Qed.





Lemma add_daily_closed (self : SchedulerService.t) (s : BackgroundScheduler) :
  SchedulerService.scheduler self = Some s ->
  SchedulerService.add_daily_jurisprudence_job self
  = {| SchedulerService.scheduler :=
         Some {| jobs := <["daily_jurisprudence" := daily_job 9 0]> (jobs s);
                 running := running s |} |}.
Proof.
  intros Hs. unfold SchedulerService.add_daily_jurisprudence_job,
    APScheduler.get_job, APScheduler.remove_job, APScheduler.add_job.
  rewrite Hs. destruct (jobs s !! "daily_jurisprudence") as [old|] eqn:Hold; simpl.
  - fold (daily_job 9 0). by rewrite insert_delete_eq.
  - done.
Qed.

Lemma add_daily_none (self : SchedulerService.t) :
  SchedulerService.scheduler self = None ->
  SchedulerService.add_daily_jurisprudence_job self = self.
Proof.
  intros Hs. unfold SchedulerService.add_daily_jurisprudence_job. by rewrite Hs.
Qed.

(** X15. [add_daily_jurisprudence_job] puts the daily collection at 09:00
    and leaves the other jobs and the running flag as they are; it does
    nothing without a scheduler, doing it twice is doing it once, and it
    undoes a schedule update: the time a request configured is lost when
    the job is added again. *)
Theorem add_daily_job_resets_the_time :
  (forall (self : SchedulerService.t) (s : BackgroundScheduler),
     SchedulerService.scheduler self = Some s ->
     SchedulerService.add_daily_jurisprudence_job self
     = {| SchedulerService.scheduler :=
            Some {| jobs := <["daily_jurisprudence" := daily_job 9 0]> (jobs s);
                    running := running s |} |}) /\
  (forall self : SchedulerService.t,
     SchedulerService.scheduler self = None ->
     SchedulerService.add_daily_jurisprudence_job self = self) /\
  (forall self : SchedulerService.t,
     SchedulerService.add_daily_jurisprudence_job
       (SchedulerService.add_daily_jurisprudence_job self)
     = SchedulerService.add_daily_jurisprudence_job self) /\
  (forall (data : option (gmap string Z)) (self : SchedulerService.t),
     SchedulerService.add_daily_jurisprudence_job
       (snd (Routes.update_schedule_config data self))
     = SchedulerService.add_daily_jurisprudence_job self).
Proof.
  split; [exact add_daily_closed|]. split; [exact add_daily_none|]. split.
  - intros self. destruct (SchedulerService.scheduler self) as [s|] eqn:Hs.
    + rewrite (add_daily_closed self s Hs).
      rewrite (add_daily_closed {| SchedulerService.scheduler := Some _ |} _
               eq_refl). simpl. by rewrite insert_insert_eq.
    + by rewrite !(add_daily_none self Hs).
  - intros data self.
    destruct (update_schedule_config_cases data self)
      as [(_ & -> & _)|(d & h & _ & _ & _ & _ & Hcase)]; [done|].
    destruct (SchedulerService.scheduler self) as [s|] eqn:Hs.
    + destruct Hcase as [_ ->].
      rewrite (add_daily_closed {| SchedulerService.scheduler := Some _ |} _
               eq_refl). simpl.
      by rewrite insert_insert_eq, (add_daily_closed self s Hs).
    + by rewrite Hcase.
Qed.


(** X17. The service's [remove_job] removes the job of that id and no
    other, answering success, and a second removal finds no job and
    changes nothing; the route answers it with status 200 for every id
    but the daily one, which only the route protects. *)
Theorem remove_job_removes_exactly_that_job (job_id : string)
    (self : SchedulerService.t) (s : BackgroundScheduler) (job : Job) :
  SchedulerService.scheduler self = Some s -> jobs s !! job_id = Some job ->
  let removed :=
    {| SchedulerService.scheduler :=
         Some {| jobs := delete job_id (jobs s); running := running s |} |} in
  SchedulerService.remove_job job_id self
  = ([("success", JBool true);
      ("message", JStr ("Job " ++ job_id ++ " removido com sucesso")%string)], removed) /\
  SchedulerService.remove_job job_id removed
  = ([("success", JBool false); ("message", JStr "Job não encontrado")], removed) /\
  (forall other s',
     other <> job_id -> SchedulerService.scheduler removed = Some s' ->
     jobs s' !! other = jobs s !! other) /\
  (job_id <> "daily_jurisprudence" ->
   Routes.remove_job job_id self
   = ({| Routes.body :=
           [("success", JBool true);
            ("message", JStr ("Job " ++ job_id ++ " removido com sucesso")%string)];
         Routes.status := 200 |}, removed)).
Proof.
  intros Hs Hjob removed. subst removed.
  pose proof (service_remove_present job_id self s job Hs Hjob) as Hremove.
  split; [exact Hremove|]. split; [|split].
  - apply (service_remove_absent job_id
             {| SchedulerService.scheduler := Some _ |} _ eq_refl).
    simpl. apply lookup_delete_eq.
  - intros other s' Hother [= <-]. simpl. by rewrite lookup_delete_ne.
  - intros Hid. unfold Routes.remove_job. apply String.eqb_neq in Hid.
    rewrite Hid, Hremove. done.
Qed.

(** X18. [add_custom_job] with a cron trigger whose hour and minute, 0
    when not given, are in range puts the job under its id in place of
    the one that was there and leaves the others. When the trigger type
    is missing or is not [cron], or a field is out of range, it answers
    a failure and the job that was registered under the id is gone all
    the same, removed before the trigger was looked at. *)
Theorem add_custom_job_replaces_or_drops (func_name : string)
    (config : SchedulerService.trigger_config)
    (job_id job_name : string) (self : SchedulerService.t) (s : BackgroundScheduler) :
  SchedulerService.scheduler self = Some s ->
  let h := default 0 (SchedulerService.config_hour config) in
  let m := default 0 (SchedulerService.config_minute config) in
  let reply := SchedulerService.add_custom_job func_name config job_id job_name self in
  (SchedulerService.trigger_type config = Some "cron" ->
   0 <= h <= 23 -> 0 <= m <= 59 ->
   reply
   = ([("success", JBool true);
       ("message", JStr ("Job " ++ job_name ++ " adicionado com sucesso")%string)],
      {| SchedulerService.scheduler :=
           Some {| jobs :=
                     <[job_id :=
                         {| name := job_name; func := func_name;
                            trigger := {| hour := h; minute := m;
                                          timezone := "America/Sao_Paulo" |};
                            max_instances := 1; misfire_grace_time := None |}]>
                       (jobs s);
                   running := running s |} |})) /\
  (SchedulerService.trigger_type config <> Some "cron" \/
   ~ (0 <= h <= 23) \/ ~ (0 <= m <= 59) ->
   json_success (fst reply) = false /\
   snd reply
   = {| SchedulerService.scheduler :=
          Some {| jobs := delete job_id (jobs s); running := running s |} |}).
Proof.
  intros Hs h m reply. subst reply.
  assert (Hremoved :
    match APScheduler.get_job job_id s with
    | Some _ => APScheduler.remove_job job_id s
    | None => Ok s
    end = Ok {| jobs := delete job_id (jobs s); running := running s |}).
  { unfold APScheduler.get_job, APScheduler.remove_job.
    destruct (jobs s !! job_id) eqn:Hjob; [done|].
    rewrite delete_id by done. by destruct s. }
  unfold SchedulerService.add_custom_job. rewrite Hs, Hremoved.
  unfold APScheduler.cron_trigger, APScheduler.add_job. fold h m. split.
  - intros -> Hh Hm. rewrite String.eqb_refl.
    replace ((0 <=? h) && (h <=? 23) && (0 <=? m) && (m <=? 59)) with true by lia.
    simpl. by rewrite insert_delete_eq.
  - intros Hbad.
    destruct (SchedulerService.trigger_type config) as [type|]; [|done].
    destruct (String.eqb type "cron") eqn:Htype; [|done].
    apply String.eqb_eq in Htype as ->.
    destruct ((0 <=? h) && (h <=? 23) && (0 <=? m) && (m <=? 59)) eqn:Hrange; [|done].
    exfalso. destruct Hbad as [?|[Hout|Hout]]; [done|apply Hout; lia..].
Qed.

(** X19. A manual run executes the daily collection and nothing else: for
    a job that is not scheduled, or is scheduled under another id, the
    answer has status 400 and the store is not touched; for the daily job
    the answer has status 200 and carries the results of a collection
    over one day, the same results and the same store as a request to
    collect now that names no [days_back]. *)
Theorem manual_run_is_the_daily_collection `{World} (stf tjsp : BaseScraper.t)
    (commit_accepted : string -> bool) (job_id : string) (self : SchedulerService.t)
    (db : Database) :
  let reply := Routes.run_job_now stf tjsp commit_accepted job_id self db in
  let collected :=
    Routes.collect_jurisprudence_now stf tjsp commit_accepted None db in
  (Routes.run_status (fst reply) = 200 \/ Routes.run_status (fst reply) = 400) /\
  (Routes.run_status (fst reply) = 400 -> snd reply = db) /\
  (Routes.run_status (fst reply) = 200 <->
   job_id = "daily_jurisprudence" /\
   exists s, SchedulerService.scheduler self = Some s /\
             is_Some (jobs s !! "daily_jurisprudence")) /\
  (Routes.run_status (fst reply) = 200 ->
   Routes.run_body (fst reply)
   = SchedulerService.Ran (Routes.collect_results (fst collected)) /\
   snd reply = snd collected /\
   (Routes.collect_results (fst collected), snd collected)
   = JurisprudenciaService.collect_all_recent_jurisprudence
       (JurisprudenciaService.scrapers stf tjsp) 1 commit_accepted db).
Proof.
  intros reply collected. subst reply collected.
  unfold Routes.run_job_now, SchedulerService.run_job_now, Routes.collect_jurisprudence_now,
    SchedulerService.collect_daily_jurisprudence, APScheduler.get_job.
  cbn [default]. rewrite lookup_empty. cbn [default].
  destruct (JurisprudenciaService.collect_all_recent_jurisprudence
              (JurisprudenciaService.scrapers stf tjsp) 1 commit_accepted db)
    as [results db'] eqn:Hrun.
  destruct (SchedulerService.scheduler self) as [s|] eqn:Hs; cbn [fst snd].
  2:{ simpl. split; [by right|]. split; [done|]. split; [|done].
      split; [done | by intros (_ & s & [=] & _)]. }
  destruct (jobs s !! job_id) as [job|] eqn:Hjob; cbn [fst snd].
  2:{ simpl. split; [by right|]. split; [done|]. split; [|done].
      split; [done|]. intros (-> & s' & [= <-] & [job Hjob']). congruence. }
  destruct (String.eqb job_id "daily_jurisprudence") eqn:Hid; cbn [fst snd].
  - apply String.eqb_eq in Hid as ->. simpl. split; [by left|]. split; [done|].
    split; [|done]. split; [|done]. intros _. split; [done|]. by exists s.
  - apply String.eqb_neq in Hid. simpl. split; [by right|]. split; [done|].
    split; [|done]. split; [done | by intros [? _]].
Qed.

(** X20. The job listing shows the scheduled jobs, each once: an id is
    listed exactly when a job is scheduled under it, no id is listed
    twice, the count the route reports is the number of jobs, and
    without a scheduler the listing is empty. *)
Theorem listing_shows_the_scheduled_jobs (self : SchedulerService.t) :
  (forall s,
     SchedulerService.scheduler self = Some s ->
     NoDup (SchedulerService.info_id <$> SchedulerService.get_scheduled_jobs self) /\
     (forall job_id,
        job_id ∈ (SchedulerService.info_id <$> SchedulerService.get_scheduled_jobs self)
        <-> is_Some (jobs s !! job_id)) /\
     (forall info,
        info ∈ SchedulerService.get_scheduled_jobs self ->
        exists job, jobs s !! SchedulerService.info_id info = Some job /\
                    SchedulerService.info_name info = name job /\
                    SchedulerService.info_trigger info = trigger job /\
                    SchedulerService.info_func info = func job) /\
     snd (Routes.get_scheduled_jobs self) = Z.of_nat (size (jobs s))) /\
  (SchedulerService.scheduler self = None ->
   Routes.get_scheduled_jobs self = ([], 0)).
Proof.
  split.
  - intros s Hs. unfold Routes.get_scheduled_jobs, SchedulerService.get_scheduled_jobs,
      APScheduler.get_jobs.
    rewrite Hs. cbn [snd].
    assert (Hids : SchedulerService.info_id
                     <$> map (fun '(job_id, job) =>
                                {| SchedulerService.info_id := job_id;
                                   SchedulerService.info_name := name job;
                                   SchedulerService.info_trigger := trigger job;
                                   SchedulerService.info_func := func job |})
                           (map_to_list (jobs s))
                   = (map_to_list (jobs s)).*1).
    { induction (map_to_list (jobs s)) as [|[job_id job] rest IH]; [done|].
      simpl. f_equal. exact IH. }
    rewrite Hids. split; [apply NoDup_fst_map_to_list|]. split; [|split].
    + intros job_id. rewrite list_elem_of_fmap. split.
      * intros ([job_id' job] & -> & Hin). apply elem_of_map_to_list in Hin. by eexists.
      * intros [job Hjob]. exists (job_id, job). split; [done|].
        by apply elem_of_map_to_list.
    + intros info (entry & -> & Hin)%(list_elem_of_fmap (B := SchedulerService.job_info)).
      destruct entry as [job_id job]. apply elem_of_map_to_list in Hin.
      by exists job.
    + by rewrite length_map, length_map_to_list.
  - intros Hs. unfold Routes.get_scheduled_jobs, SchedulerService.get_scheduled_jobs.
    by rewrite Hs.
Qed.
End SchedulerMore.


Lemma add_daily_job_resets_the_time_witness :
  SchedulerService.add_daily_jurisprudence_job
    (snd (Routes.update_schedule_config (Some {[ "hour" := 6 ]}) Sample.busy))
  = Sample.busy.
Proof.
  destruct add_daily_job_resets_the_time as (Hclosed & _ & _ & Hupdate).
  rewrite Hupdate, (Hclosed Sample.busy _ eq_refl). vm_compute. reflexivity.
Defined.


Lemma remove_job_removes_exactly_that_job_witness :
  SchedulerService.remove_job "report" Sample.busy
  = ([("success", JBool true); ("message", JStr "Job report removido com sucesso")],
     {| SchedulerService.scheduler :=
          Some {| jobs := delete "report" (jobs (default {| jobs := ∅; running := false |}
                                                   (SchedulerService.scheduler Sample.busy)));
                  running := true |} |}).
Proof.
  assert (Hjob : jobs (default {| jobs := ∅; running := false |}
                         (SchedulerService.scheduler Sample.busy)) !! "report"
                 = Some Sample.weekly) by reflexivity.
  exact (proj1 (remove_job_removes_exactly_that_job "report" Sample.busy _
                  Sample.weekly eq_refl Hjob)).
Defined.

Lemma add_custom_job_replaces_or_drops_witness :
  json_success
    (fst (SchedulerService.add_custom_job "report"
            {| SchedulerService.trigger_type := Some "interval";
               SchedulerService.config_hour := Some 8;
               SchedulerService.config_minute := None |}
            "report" "Relatório" Sample.busy)) = false /\
  SchedulerService.get_scheduled_jobs
    (snd (SchedulerService.add_custom_job "report"
            {| SchedulerService.trigger_type := Some "interval";
               SchedulerService.config_hour := Some 8;
               SchedulerService.config_minute := None |}
            "report" "Relatório" Sample.busy))
  = SchedulerService.get_scheduled_jobs Sample.started.
Proof.
  destruct (add_custom_job_replaces_or_drops "report"
              {| SchedulerService.trigger_type := Some "interval";
                 SchedulerService.config_hour := Some 8;
                 SchedulerService.config_minute := None |}
              "report" "Relatório" Sample.busy _ eq_refl) as [_ Hdrop].
  cbv zeta in Hdrop. destruct Hdrop as [Hreply Hstate]; [by left|].
  split; [exact Hreply|]. rewrite Hstate. vm_compute. reflexivity.
Defined.

Lemma manual_run_is_the_daily_collection_witness :
  Routes.run_status
    (fst (@Routes.run_job_now Sample.world (@STJScraper.scraper Sample.world)
            (@STJScraper.scraper Sample.world) (fun _ => true) "report" Sample.busy
            Sample.empty_db)) = 400 /\
  snd (@Routes.run_job_now Sample.world (@STJScraper.scraper Sample.world)
         (@STJScraper.scraper Sample.world) (fun _ => true) "report" Sample.busy
         Sample.empty_db) = Sample.empty_db.
Proof.
  destruct (@manual_run_is_the_daily_collection Sample.world
              (@STJScraper.scraper Sample.world) (@STJScraper.scraper Sample.world)
              (fun _ => true) "report" Sample.busy Sample.empty_db)
    as (_ & Hstore & _).
  assert (Hstatus :
    Routes.run_status
      (fst (@Routes.run_job_now Sample.world (@STJScraper.scraper Sample.world)
              (@STJScraper.scraper Sample.world) (fun _ => true) "report" Sample.busy
              Sample.empty_db)) = 400) by reflexivity.
  split; [exact Hstatus | exact (Hstore Hstatus)].
Defined.

Lemma listing_shows_the_scheduled_jobs_witness :
  snd (Routes.get_scheduled_jobs Sample.busy) = 2 /\
  "report" ∈ (SchedulerService.info_id <$> SchedulerService.get_scheduled_jobs Sample.busy).
Proof.
  destruct (listing_shows_the_scheduled_jobs Sample.busy) as [Hlist _].
  destruct (Hlist _ eq_refl) as (_ & Hids & _ & Hcount).
  split; [etrans; [exact Hcount | reflexivity]|].
  apply Hids. by exists Sample.weekly.
Defined.

(** * From the candidates to the store *)

Section StjHarvest.
Context `{World}.
Import Spec.

Lemma stj_search_from_items (days_back : Z) (c : gmap string pyval) :
  c ∈ STJScraper.search_recent_decisions days_back ->
  exists item, STJScraper._extract_basic_info item = Some c.
Proof.
  unfold STJScraper.search_recent_decisions.
  destruct (STJScraper.start_date days_back); cbn [bind try_except];
    [|by intros ?%elem_of_nil].
  destruct (BaseScraper.get_page (VStr STJScraper.search_url)) as [[text|]|];
    cbn [bind try_except]; [|by intros ?%elem_of_nil..].
  destruct (parse_html text) as [page|]; cbn [bind try_except];
    [|by intros ?%elem_of_nil].
  intros (item & _ & Hitem)%list_elem_of_omap. by exists item.
Qed.

Lemma stj_details_labelled (decision_url : pyval) (d : gmap string pyval) :
  STJScraper.extract_decision_details decision_url = Some d ->
  dict_get d "tribunal" = VStr "STJ" /\ dict_get d "url_origem" = decision_url.
Proof.
  unfold STJScraper.extract_decision_details.
  destruct (BaseScraper.get_page decision_url) as [[text|]|];
    cbn [bind try_except]; [|done..].
  destruct (parse_html text) as [page|]; cbn [bind try_except]; [|done].
  intros [= <-]. by dict_fields.
Qed.

(** X21. Every decision the STJ scraper collects is labelled ["STJ"] and
    keeps as [url_origem] the address of the candidate it was extracted
    from, an absolute address: the link of a result item, put behind
    [base_url] when it does not start with [http]. *)
Theorem stj_harvest_is_labelled_and_addressed (days_back : Z) (d : gmap string pyval) :
  d ∈ BaseScraper.get_recent_jurisprudence STJScraper.scraper days_back ->
  dict_get d "tribunal" = VStr "STJ" /\
  exists c url,
    c ∈ STJScraper.search_recent_decisions days_back /\
    dict_get c "url" = VStr url /\ dict_get d "url_origem" = VStr url /\
    String.prefix "http" url = true.
Proof.
  unfold BaseScraper.get_recent_jurisprudence.
  cbn [STJScraper.scraper BaseScraper.search_recent_decisions bind].
  rewrite (extract_all_omap STJScraper.scraper STJScraper.extract_decision_details);
    [|done | apply stj_details_not_empty].
  cbn [try_except app].
  intros (c & Hc & Hd)%list_elem_of_omap.
  destruct (stj_details_labelled _ _ Hd) as [Htribunal Hurl].
  destruct (stj_search_from_items _ _ Hc) as [item Hitem].
  destruct (stj_basic_info item c Hitem) as (_ & (url & Hcurl & Habsolute) & _).
  split; [done|]. exists c, url. split; [done|]. split; [done|].
  split; [congruence | done].
Qed.
End StjHarvest.

Section TableFacts.
Import JurisprudenciaService Spec.
Variable days_back : Z.

Lemma save_batch_other_table (accepted : string -> bool) (tribunal_name : string)
    (items : list pyobj) (db : Database) :
  clean db ->
  if String.eqb tribunal_name "ENUNCIADOS"
  then jurisprudencia (snd (save_batch accepted tribunal_name items db))
       = jurisprudencia db
  else enunciados (snd (save_batch accepted tribunal_name items db)) = enunciados db.
Proof.
  intros [Hj He]. unfold save_batch.
  destruct (String.eqb tribunal_name "ENUNCIADOS");
    [rewrite save_enunciados_staged | rewrite save_jurisprudencia_staged];
    destruct (accepted tribunal_name); simpl; rewrite ?Hj, ?He, ?app_nil_r; done.
Qed.

(** X22. Each table is written by its own sources: on a clean session a
    run over sources none of which is named ENUNCIADOS leaves the table
    of the enunciados as it was, and a run over sources all named
    ENUNCIADOS leaves the table of the decisions as it was, whatever the
    sources return. *)
Theorem tables_are_written_by_their_own_sources (registry : list (string * Scraper))
    (accepted : string -> bool) (db : Database) :
  clean db ->
  let run := collect_all_recent_jurisprudence registry days_back accepted db in
  (Forall (fun entry => fst entry <> "ENUNCIADOS") registry ->
   enunciados (snd run) = enunciados db) /\
  (Forall (fun entry => fst entry = "ENUNCIADOS") registry ->
   jurisprudencia (snd run) = jurisprudencia db).
Proof.
  intros Hclean run. subst run. rewrite collect_all_spec. cbn [snd].
  revert db Hclean. induction registry as [|entry rest IH]; intros db Hclean; [done|].
  cbn [final_db].
  destruct (invoke days_back entry) as [items|e].
  - pose proof (save_batch_other_table accepted (fst entry) items db Hclean) as Hother.
    destruct (IH (snd (save_batch accepted (fst entry) items db))) as [IHcourt IHen];
      [apply save_batch_clean|].
    split; intros Hnames; inversion Hnames as [|? ? Hname Hrest]; subst.
    + rewrite IHcourt by done. apply String.eqb_neq in Hname. by rewrite Hname in Hother.
    + rewrite IHen by done. apply String.eqb_eq in Hname. by rewrite Hname in Hother.
  - destruct (IH db Hclean) as [IHcourt IHen].
    split; intros Hnames; inversion Hnames; subst; auto.
Qed.
End TableFacts.

Lemma stj_harvest_is_labelled_and_addressed_witness :
  dict_get (default ∅ (head (BaseScraper.get_recent_jurisprudence
                               (@STJScraper.scraper Sample.world) 7)))
    "tribunal" = VStr "STJ".
Proof.
  apply (@stj_harvest_is_labelled_and_addressed Sample.world 7).
  vm_compute. apply list_elem_of_here.
Defined.

Lemma tables_are_written_by_their_own_sources_witness :
  enunciados
    (snd (JurisprudenciaService.collect_all_recent_jurisprudence
            [Sample.stf; Sample.stj; Sample.tjsp] 7 Sample.tjsp_refused Sample.stored))
  = enunciados Sample.stored.
Proof.
  apply (tables_are_written_by_their_own_sources 7 [Sample.stf; Sample.stj; Sample.tjsp]
           Sample.tjsp_refused Sample.stored (conj eq_refl eq_refl)).
  repeat constructor; discriminate.
Defined.
